(** * The native socket layer of QuestDB: [core/src/main/c/share/net.c]

    The C file is a thin JNI layer: every function makes a few libc calls and
    folds their results into a [jint], [jlong] or [jboolean].  The embedding
    below keeps that shape.  A C function becomes a program in a small monad
    whose only effects are the libc calls the function makes and a read of
    [errno]; a program is run against a description of the operating system
    ([libc]).  Statements that hold whatever the operating system answers are
    proved for every [libc]; statements about descriptors, pending bytes or
    heap blocks are proved on [posix], a reference model of the calls. *)

From Stdlib Require Import ZArith Lia.
From Stdlib.Strings Require Import Byte.
From stdpp Require Import gmap list.

Local Open Scope Z_scope.

(** ** C integer conversions *)

(** Conversion to an unsigned type of [bits] bits: reduction modulo [2^bits]. *)
Definition wrap_unsigned (bits x : Z) : Z := x mod 2 ^ bits.

(** Conversion to a signed two's-complement type of [bits] bits. *)
Definition wrap_signed (bits x : Z) : Z :=
  let u := x mod 2 ^ bits in
  if u <? 2 ^ (bits - 1) then u else u - 2 ^ bits.

Definition INT_MAX : Z := 2147483647.
Definition INT_MIN : Z := -2147483648.

(** [(int) fd] for a [jlong fd], and the implicit conversion of a returned
    [ssize_t] or [uint32_t] to [jint]. *)
Definition to_int (x : Z) : Z := wrap_signed 32 x.
Definition to_jint (x : Z) : Z := wrap_signed 32 x.
Definition to_uint32 (x : Z) : Z := wrap_unsigned 32 x.
Definition to_uint16 (x : Z) : Z := wrap_unsigned 16 x.
Definition to_u_char (x : Z) : Z := wrap_unsigned 8 x.
Definition to_size_t (x : Z) : Z := wrap_unsigned 64 x.

(** ** Byte order *)

(** The [n] low bytes of [x], least significant first. *)
Fixpoint le_bytes (n : nat) (x : Z) : list Z :=
  match n with
  | O => []
  | S n' => x mod 256 :: le_bytes n' (x / 256)
  end.

Fixpoint le_value (l : list Z) : Z :=
  match l with
  | [] => 0
  | b :: l' => b + 256 * le_value l'
  end.

(** Network byte order is big-endian. *)
Definition be_bytes (n : nat) (x : Z) : list Z := rev (le_bytes n x).
Definition be_value (l : list Z) : Z := le_value (rev l).

(** A list of byte values. *)
Definition is_bytes (l : list Z) : Prop := Forall (fun b => 0 <= b < 256) l.

(** ** Constants of the system headers and of [net.h] *)

(** The values the system headers give the names [net.c] uses, the error
    numbers the reference model reports, and the byte order of the host. *)
Class platform := {
  AF_INET : Z;
  SOCK_STREAM : Z;
  SOCK_DGRAM : Z;
  F_SETFL : Z;
  O_NONBLOCK : Z;
  SOL_SOCKET : Z;
  SO_REUSEADDR : Z;
  IPPROTO_IP : Z;
  IP_ADD_MEMBERSHIP : Z;
  IP_MULTICAST_TTL : Z;
  MSG_PEEK : Z;
  EWOULDBLOCK : Z;
  EBADF : Z;
  EINVAL : Z;
  ENOTCONN : Z;
  ENOPROTOOPT : Z;
  EADDRINUSE : Z;
  EPIPE : Z;
  ENOMEM : Z;
  big_endian : bool
}.

(** Linux on a little-endian machine. *)
Definition linux : platform := {|
  AF_INET := 2;
  SOCK_STREAM := 1;
  SOCK_DGRAM := 2;
  F_SETFL := 4;
  O_NONBLOCK := 2048;
  SOL_SOCKET := 1;
  SO_REUSEADDR := 2;
  IPPROTO_IP := 0;
  IP_ADD_MEMBERSHIP := 35;
  IP_MULTICAST_TTL := 33;
  MSG_PEEK := 2;
  EWOULDBLOCK := 11;
  EBADF := 9;
  EINVAL := 22;
  ENOTCONN := 107;
  ENOPROTOOPT := 92;
  EADDRINUSE := 98;
  EPIPE := 32;
  ENOMEM := 12;
  big_endian := false
|}.

(** The two sentinels [net.c] takes from [net.h]
    ([com_questdb_network_Net_ERETRY] and
    [com_questdb_network_Net_EOTHERDISCONNECT]).  The header is not among the
    sources, so the functions below take the values as parameters. *)
Class net_h := {
  ERETRY : Z;
  EOTHERDISCONNECT : Z
}.

(** Modelled from the spec: [net.h] is missing; section 6 of the specification
    only fixes that the Retry and the Disconnected sentinel are two distinct
    negative values.  This instance is one such choice; it is used to evaluate
    the functions on concrete inputs, and no general statement depends on it. *)
Definition net_h_sample : net_h := {|
  ERETRY := -3;
  EOTHERDISCONNECT := -2
|}.

Section ByteOrder.
Context {P : platform}.

(** How this host lays out an [n]-byte integer in memory, and reads one. *)
Definition in_memory (n : nat) (x : Z) : list Z :=
  if big_endian then be_bytes n x else le_bytes n x.
Definition from_memory (l : list Z) : Z :=
  if big_endian then be_value l else le_value l.

(** libc's [htonl], [htons], [ntohl], [ntohs]: the host integer whose memory
    image is the network-order encoding of the argument, and back. *)
Definition htonl (x : Z) : Z := from_memory (be_bytes 4 x).
Definition htons (x : Z) : Z := from_memory (be_bytes 2 x).
Definition ntohl (y : Z) : Z := be_value (in_memory 4 y).
Definition ntohs (y : Z) : Z := be_value (in_memory 2 y).
End ByteOrder.

(** ** libc calls *)

(** The option values [net.c] passes to [setsockopt]. *)
Inductive optval : Type :=
| opt_int (v : Z)
| opt_u_char (v : Z)
| opt_ip_mreq (imr_multiaddr imr_interface : Z).

(** [struct sockaddr_in]; the fields hold what the host reads from memory, so
    [sin_port] and [sin_addr] are network-order quantities. *)
Record sockaddr_in := {
  sin_family : Z;
  sin_port : Z;
  sin_addr : Z
}.

Inductive sockaddr_field : Type := f_sin_family | f_sin_port | f_sin_addr.

Definition sizeof_sockaddr_in : Z := 16.

(** A call and the type of what it hands back.  [Recv] hands back the count and
    the bytes it wrote to the buffer; [Getpeername] the return code and the
    address it wrote; [Store] is an assignment through a pointer to a
    [sockaddr_in]. *)
Inductive call : Type -> Type :=
| Socket (domain type protocol : Z) : call Z
| Fcntl (fd cmd arg : Z) : call Z
| Setsockopt (fd level optname : Z) (v : optval) : call Z
| Close (fd : Z) : call Z
| Send (fd : Z) (buf : list byte) (len flags : Z) : call Z
| Recv (fd len flags : Z) : call (Z * list byte)
| Getpeername (fd : Z) : call (Z * sockaddr_in)
| Calloc (nmemb size : Z) : call Z
| Free (p : Z) : call unit
| Store (p : Z) (f : sockaddr_field) (v : Z) : call unit.

(** A C function body: it returns, makes a call and goes on with the answer,
    or reads [errno] and goes on with its value. *)
Inductive prog (A : Type) : Type :=
| Ret (a : A)
| Do {X : Type} (c : call X) (k : X -> prog A)
| Errno (k : Z -> prog A).

Arguments Ret {A} a.
Arguments Do {A X} c k.
Arguments Errno {A} k.

Fixpoint bind {A B : Type} (p : prog A) (f : A -> prog B) : prog B :=
  match p with
  | Ret a => f a
  | Do c k => Do c (fun x => bind (k x) f)
  | Errno k => Errno (fun e => bind (k e) f)
  end.

(** [prog] is a monad; stdpp's notations [x ← p; q] and [p;; q] are used for
    sequencing. *)
#[export] Instance prog_ret : MRet prog := @Ret.
#[export] Instance prog_bind : MBind prog := fun A B f p => bind p f.

Definition socket (domain type protocol : Z) : prog Z := Do (Socket domain type protocol) Ret.
Definition fcntl (fd cmd arg : Z) : prog Z := Do (Fcntl fd cmd arg) Ret.
Definition setsockopt (fd level optname : Z) (v : optval) : prog Z :=
  Do (Setsockopt fd level optname v) Ret.
Definition close (fd : Z) : prog Z := Do (Close fd) Ret.
Definition send (fd : Z) (buf : list byte) (len flags : Z) : prog Z :=
  Do (Send fd buf len flags) Ret.
Definition recv (fd len flags : Z) : prog (Z * list byte) := Do (Recv fd len flags) Ret.
Definition getpeername (fd : Z) : prog (Z * sockaddr_in) := Do (Getpeername fd) Ret.
Definition calloc (nmemb size : Z) : prog Z := Do (Calloc nmemb size) Ret.
Definition free (p : Z) : prog unit := Do (Free p) Ret.
Definition store (p : Z) (f : sockaddr_field) (v : Z) : prog unit := Do (Store p f v) Ret.
Definition errno : prog Z := Errno Ret.

(** ** Running a program *)

(** A call returns, never returns (a blocking socket with nothing to deliver),
    or has no defined behaviour (a store through a null pointer). *)
Inductive result (W A : Type) : Type :=
| Returns (a : A) (w : W)
| Blocks
| Faults.

Arguments Returns {W A} a w.
Arguments Blocks {W A}.
Arguments Faults {W A}.

(** An operating system over states [W]: what each call does, and the value of
    [errno] in a state. *)
Record libc (W : Type) := {
  sys : forall X : Type, call X -> W -> result W X;
  errno_of : W -> Z
}.

Arguments sys {W} l {X} c w.
Arguments errno_of {W} l w.

Fixpoint run {W A : Type} (os : libc W) (p : prog A) (w : W) : result W A :=
  match p with
  | Ret a => Returns a w
  | Do c k =>
      match sys os c w with
      | Returns x w' => run os (k x) w'
      | Blocks => Blocks
      | Faults => Faults
      end
  | Errno k => run os (k (errno_of os w)) w
  end.

(** ** The functions of [net.c]

    The functions the statements below are about, each translated line by
    line.  A [jlong fd] goes through [to_int] where the C casts or converts it
    to [int]; a [jint len] through [to_size_t]; a returned [ssize_t] or
    [uint32_t] through [to_jint].  The buffer behind [ptr] is the list of
    bytes it holds for [send], and is returned beside the result for [recv]
    and [peek].  A [jboolean] is a [bool]. *)

Section Net.
Context {P : platform} {N : net_h}.

(** [net.c], lines 40-56. *)
Definition Java_io_questdb_network_Net_socketTcp0 (blocking : bool) : prog Z :=
  fd ← socket AF_INET SOCK_STREAM 0;
  if (0 <? fd) && negb blocking then
    r ← fcntl fd F_SETFL O_NONBLOCK;
    if r <? 0 then
      close fd;;
      Ret (-1)
    else
      r' ← setsockopt fd SOL_SOCKET SO_REUSEADDR (opt_int 1);
      if r' <? 0 then
        close fd;;
        Ret (-1)
      else Ret fd
  else Ret fd.

(** Lines 58-68; [&&] evaluates [fcntl] only when [fd > 0]. *)
Definition Java_io_questdb_network_Net_socketUdp0 : prog Z :=
  fd ← socket AF_INET SOCK_DGRAM 0;
  if 0 <? fd then
    r ← fcntl fd F_SETFL O_NONBLOCK;
    if r <? 0 then
      close fd;;
      Ret (-1)
    else Ret fd
  else Ret fd.

(** Lines 70-77; the result of [calloc] is used without a test. *)
Definition Java_io_questdb_network_Net_sockaddr (address port : Z) : prog Z :=
  addr ← calloc 1 sizeof_sockaddr_in;
  store addr f_sin_family AF_INET;;
  store addr f_sin_addr (htonl (to_uint32 address));;
  store addr f_sin_port (htons (to_uint16 port));;
  Ret addr.

(** Lines 79-84. *)
Definition Java_io_questdb_network_Net_freeSockAddr (address : Z) : prog unit :=
  if negb (address =? 0) then free address else Ret tt.

(** Lines 113-120. *)
Definition Java_io_questdb_network_Net_join (fd bindAddress groupAddress : Z) : prog bool :=
  let imr_interface := htonl (to_uint32 bindAddress) in
  let imr_multiaddr := htonl (to_uint32 groupAddress) in
  r ← setsockopt (to_int fd) IPPROTO_IP IP_ADD_MEMBERSHIP
         (opt_ip_mreq imr_multiaddr imr_interface);
  Ret (if r <? 0 then false else true).

(** Lines 132-144. *)
Definition Java_io_questdb_network_Net_send (fd : Z) (ptr : list byte) (len : Z) : prog Z :=
  n ← send (to_int fd) ptr (to_size_t len) 0;
  if -1 <? n then Ret (to_jint n)
  else
    e ← errno;
    if e =? EWOULDBLOCK then Ret ERETRY
    else Ret EOTHERDISCONNECT.

(** Lines 146-162. *)
Definition Java_io_questdb_network_Net_recv (fd len : Z) : prog (Z * list byte) :=
  '(n, buf) ← recv (to_int fd) (to_size_t len) 0;
  if 0 <? n then Ret (to_jint n, buf)
  else if n =? 0 then Ret (EOTHERDISCONNECT, buf)
  else
    e ← errno;
    if e =? EWOULDBLOCK then Ret (ERETRY, buf)
    else Ret (EOTHERDISCONNECT, buf).

(** Lines 164-180. *)
Definition Java_io_questdb_network_Net_peek (fd len : Z) : prog (Z * list byte) :=
  '(n, buf) ← recv (to_int fd) (to_size_t len) MSG_PEEK;
  if 0 <? n then Ret (to_jint n, buf)
  else if n =? 0 then Ret (EOTHERDISCONNECT, buf)
  else
    e ← errno;
    if e =? EWOULDBLOCK then Ret (ERETRY, buf)
    else Ret (EOTHERDISCONNECT, buf).

(** Lines 182-186; the byte read into the local [c] is dropped. *)
Definition Java_io_questdb_network_Net_isDead (fd : Z) : prog bool :=
  '(n, _) ← recv (to_int fd) 1 0;
  Ret (n <? 1).

(** Lines 231-239; [fd] is passed to [setsockopt] without a cast and is
    converted to [int] there. *)
Definition Java_io_questdb_network_Net_setMulticastTtl (fd ttl : Z) : prog Z :=
  let lTTL := to_u_char ttl in
  result ← setsockopt (to_int fd) IPPROTO_IP IP_MULTICAST_TTL (opt_u_char lTTL);
  if result =? 0 then Ret result else Ret (-1).

(** Lines 296-308. *)
Definition Java_io_questdb_network_Net_getPeerIP (fd : Z) : prog Z :=
  '(r, peer) ← getpeername (to_int fd);
  if r =? 0 then
    if sin_family peer =? AF_INET then Ret (to_jint (ntohl (sin_addr peer)))
    else Ret (-2)
  else Ret (-1).

(** Lines 310-323. *)
Definition Java_io_questdb_network_Net_getPeerPort (fd : Z) : prog Z :=
  '(r, peer) ← getpeername (to_int fd);
  if r =? 0 then
    if sin_family peer =? AF_INET then Ret (to_jint (ntohs (sin_port peer)))
    else Ret (-2)
  else Ret (-1).
End Net.

(** ** What a run hands to the operating system *)

(** One record per call made, with the answer it got. *)
Inductive event : Type :=
| EvSocket (domain type protocol ret : Z)
| EvFcntl (fd cmd arg ret : Z)
| EvSetsockopt (fd level optname : Z) (v : optval) (ret : Z)
| EvClose (fd ret : Z)
| EvSend (fd : Z) (buf : list byte) (len flags ret : Z)
| EvRecv (fd len flags ret : Z) (buf : list byte)
| EvGetpeername (fd ret : Z) (peer : sockaddr_in)
| EvCalloc (nmemb size ret : Z)
| EvFree (p : Z)
| EvStore (p : Z) (f : sockaddr_field) (v : Z).

Definition event_of {X : Type} (c : call X) : X -> event :=
  match c in call T return T -> event with
  | Socket d t p => fun r => EvSocket d t p r
  | Fcntl fd cmd arg => fun r => EvFcntl fd cmd arg r
  | Setsockopt fd level optname v => fun r => EvSetsockopt fd level optname v r
  | Close fd => fun r => EvClose fd r
  | Send fd buf len flags => fun r => EvSend fd buf len flags r
  | Recv fd len flags => fun r => EvRecv fd len flags (fst r) (snd r)
  | Getpeername fd => fun r => EvGetpeername fd (fst r) (snd r)
  | Calloc nmemb size => fun r => EvCalloc nmemb size r
  | Free p => fun _ => EvFree p
  | Store p f v => fun _ => EvStore p f v
  end.

(** An operating system that also keeps the list of calls made, oldest first. *)
Definition logged {W : Type} (os : libc W) : libc (W * list event) := {|
  sys X c s :=
    match sys os c (fst s) with
    | Returns x w' => Returns x (w', snd s ++ [event_of c x])
    | Blocks => Blocks
    | Faults => Faults
    end;
  errno_of s := errno_of os (fst s)
|}.

(** ** Vocabulary of the statements *)

Section Vocabulary.
Context {P : platform} {N : net_h}.

(** What [recv] and [peek] make of the count [n] the read returned and of
    the [errno] it left. *)
Definition read_outcome (n e : Z) : Z :=
  if 0 <? n then to_jint n
  else if n =? 0 then EOTHERDISCONNECT
  else if e =? EWOULDBLOCK then ERETRY
  else EOTHERDISCONNECT.

(** The two creations that configure the descriptor: [socketUdp0], and
    [socketTcp0] with [blocking] false. *)
Definition create (udp : bool) : prog Z :=
  if udp then Java_io_questdb_network_Net_socketUdp0
  else Java_io_questdb_network_Net_socketTcp0 false.

(** The membership request [join] hands to the operating system. *)
Definition membership_request (fd bindAddress groupAddress : Z) : call Z :=
  Setsockopt (to_int fd) IPPROTO_IP IP_ADD_MEMBERSHIP
    (opt_ip_mreq (htonl (to_uint32 groupAddress)) (htonl (to_uint32 bindAddress))).

(** The descriptor [sockaddr] builds for a host-order address and port. *)
Definition built (address port : Z) : sockaddr_in := {|
  sin_family := AF_INET;
  sin_port := htons (to_uint16 port);
  sin_addr := htonl (to_uint32 address)
|}.

End Vocabulary.

(** The calls a creation makes. *)
Definition creation_call {X : Type} (c : call X) : bool :=
  match c with
  | Socket _ _ _ | Fcntl _ _ _ | Setsockopt _ _ _ _ | Close _ => true
  | _ => false
  end.

(** None of them waits: each returns, with success or with an error. *)
Definition creation_calls_return {W : Type} (os : libc W) : Prop :=
  forall (X : Type) (c : call X) (w : W),
    creation_call c = true -> exists (x : X) (w' : W), sys os c w = Returns x w'.

(** ** A reference model of the calls *)

(** A socket as the kernel sees it: its flags and options, the bytes received
    and not yet read, the bytes accepted for sending, the room left in the send
    buffer, the peer when connected, and whether the peer has closed. *)
Record sock := {
  nonblock : bool;
  reuseaddr : bool;
  multicast_ttl : Z;
  groups : list (Z * Z);
  rx : list byte;
  tx : list byte;
  tx_room : Z;
  peer : option sockaddr_in;
  peer_closed : bool
}.

(** The descriptor table, the live heap blocks (addresses name whole blocks, 0
    is the null pointer), [errno], and a script of failures: each call that can
    fail for reasons outside the model takes the head of the script, 0 or an
    empty script meaning no failure and any other value an error number. *)
Record world := {
  fds : gmap Z sock;
  heap : gmap Z sockaddr_in;
  last_errno : Z;
  faults : list Z
}.

Definition with_fds (m : gmap Z sock) (w : world) : world :=
  {| fds := m; heap := heap w; last_errno := last_errno w; faults := faults w |}.
Definition with_heap (h : gmap Z sockaddr_in) (w : world) : world :=
  {| fds := fds w; heap := h; last_errno := last_errno w; faults := faults w |}.
Definition with_errno (e : Z) (w : world) : world :=
  {| fds := fds w; heap := heap w; last_errno := e; faults := faults w |}.
Definition pop_fault (w : world) : Z * world :=
  match faults w with
  | [] => (0, w)
  | e :: l => (e, {| fds := fds w; heap := heap w; last_errno := last_errno w; faults := l |})
  end.

Definition new_sock : sock := {|
  nonblock := false; reuseaddr := false; multicast_ttl := 1; groups := [];
  rx := []; tx := []; tx_room := 65536; peer := None; peer_closed := false
|}.

Definition set_nonblock (b : bool) (s : sock) : sock := {|
  nonblock := b; reuseaddr := reuseaddr s; multicast_ttl := multicast_ttl s;
  groups := groups s; rx := rx s; tx := tx s; tx_room := tx_room s;
  peer := peer s; peer_closed := peer_closed s
|}.
Definition set_reuseaddr (b : bool) (s : sock) : sock := {|
  nonblock := nonblock s; reuseaddr := b; multicast_ttl := multicast_ttl s;
  groups := groups s; rx := rx s; tx := tx s; tx_room := tx_room s;
  peer := peer s; peer_closed := peer_closed s
|}.
Definition set_multicast_ttl (t : Z) (s : sock) : sock := {|
  nonblock := nonblock s; reuseaddr := reuseaddr s; multicast_ttl := t;
  groups := groups s; rx := rx s; tx := tx s; tx_room := tx_room s;
  peer := peer s; peer_closed := peer_closed s
|}.
Definition set_groups (g : list (Z * Z)) (s : sock) : sock := {|
  nonblock := nonblock s; reuseaddr := reuseaddr s; multicast_ttl := multicast_ttl s;
  groups := g; rx := rx s; tx := tx s; tx_room := tx_room s;
  peer := peer s; peer_closed := peer_closed s
|}.
Definition set_rx (l : list byte) (s : sock) : sock := {|
  nonblock := nonblock s; reuseaddr := reuseaddr s; multicast_ttl := multicast_ttl s;
  groups := groups s; rx := l; tx := tx s; tx_room := tx_room s;
  peer := peer s; peer_closed := peer_closed s
|}.
Definition push_tx (l : list byte) (s : sock) : sock := {|
  nonblock := nonblock s; reuseaddr := reuseaddr s; multicast_ttl := multicast_ttl s;
  groups := groups s; rx := rx s; tx := tx s ++ l; tx_room := tx_room s - Z.of_nat (length l);
  peer := peer s; peer_closed := peer_closed s
|}.

(** The lowest key from [n] on that [m] does not hold; [size m] probes are
    enough to find one. *)
Fixpoint first_free {V : Type} (m : gmap Z V) (n : Z) (fuel : nat) : Z :=
  match fuel with
  | O => n
  | S fuel' =>
      match m !! n with
      | Some _ => first_free m (n + 1) fuel'
      | None => n
      end
  end.
Definition lowest_free {V : Type} (from : Z) (m : gmap Z V) : Z :=
  first_free m from (size m).

Definition null_sockaddr : sockaddr_in := {| sin_family := 0; sin_port := 0; sin_addr := 0 |}.

Definition set_field (f : sockaddr_field) (v : Z) (a : sockaddr_in) : sockaddr_in :=
  match f with
  | f_sin_family => {| sin_family := v; sin_port := sin_port a; sin_addr := sin_addr a |}
  | f_sin_port => {| sin_family := sin_family a; sin_port := v; sin_addr := sin_addr a |}
  | f_sin_addr => {| sin_family := sin_family a; sin_port := sin_port a; sin_addr := v |}
  end.

(** 224.0.0.0/4, on a host-order address. *)
Definition is_multicast (a : Z) : bool := (3758096384 <=? a) && (a <? 4026531840).

Section Posix.
Context {P : platform}.

(** A call that fails returns its error value and sets [errno]. *)
Definition fail {A : Type} (a : A) (e : Z) (w : world) : result world A :=
  Returns a (with_errno e w).

(** [socket] hands out the lowest descriptor that is not open, unless the
    script makes it fail. *)
Definition posix_socket (domain type protocol : Z) (w : world) : result world Z :=
  let '(e, w) := pop_fault w in
  if negb (e =? 0) then fail (-1) e w
  else
    let fd := lowest_free 0 (fds w) in
    Returns fd (with_fds (<[fd := new_sock]> (fds w)) w).

(** [fcntl(F_SETFL)] replaces the status flags of an open descriptor. *)
Definition posix_fcntl (fd cmd arg : Z) (w : world) : result world Z :=
  let '(e, w) := pop_fault w in
  match fds w !! fd with
  | None => fail (-1) EBADF w
  | Some s =>
      if negb (e =? 0) then fail (-1) e w
      else if cmd =? F_SETFL then
        Returns 0 (with_fds (<[fd := set_nonblock (negb (Z.land arg O_NONBLOCK =? 0)) s]> (fds w)) w)
      else fail (-1) EINVAL w
  end.

(** What an option does to a socket, or the error it is refused with.  A
    group address must be in 224.0.0.0/4 and not joined yet on that
    interface.  A kernel refuses an option for more reasons than these (an
    interface address that no interface holds, a socket of the wrong type);
    such refusals are among the failures of the script. *)
Definition apply_option (level optname : Z) (v : optval) (s : sock) : Z + sock :=
  if (level =? SOL_SOCKET) && (optname =? SO_REUSEADDR) then
    match v with
    | opt_int x => inr (set_reuseaddr (negb (x =? 0)) s)
    | _ => inl EINVAL
    end
  else if (level =? IPPROTO_IP) && (optname =? IP_MULTICAST_TTL) then
    match v with
    | opt_int x | opt_u_char x => inr (set_multicast_ttl x s)
    | _ => inl EINVAL
    end
  else if (level =? IPPROTO_IP) && (optname =? IP_ADD_MEMBERSHIP) then
    match v with
    | opt_ip_mreq g i =>
        if is_multicast (ntohl g) then
          if bool_decide ((ntohl g, ntohl i) ∈ groups s) then inl EADDRINUSE
          else inr (set_groups ((ntohl g, ntohl i) :: groups s) s)
        else inl EINVAL
    | _ => inl EINVAL
    end
  else inl ENOPROTOOPT.

(** [setsockopt] applies the option to an open descriptor, or fails and
    leaves it as it was. *)
Definition posix_setsockopt (fd level optname : Z) (v : optval) (w : world) : result world Z :=
  let '(e, w) := pop_fault w in
  match fds w !! fd with
  | None => fail (-1) EBADF w
  | Some s =>
      if negb (e =? 0) then fail (-1) e w
      else
        match apply_option level optname v s with
        | inl e' => fail (-1) e' w
        | inr s' => Returns 0 (with_fds (<[fd := s']> (fds w)) w)
        end
  end.

(** [close] removes the descriptor from the table. *)
Definition posix_close (fd : Z) (w : world) : result world Z :=
  match fds w !! fd with
  | None => fail (-1) EBADF w
  | Some _ => Returns 0 (with_fds (delete fd (fds w)) w)
  end.

(** [send] on a connected socket takes as many bytes as the send buffer has
    room for; with no room it fails with [EWOULDBLOCK] on a non-blocking
    socket and waits on a blocking one. *)
Definition posix_send (fd : Z) (buf : list byte) (len flags : Z) (w : world) : result world Z :=
  match fds w !! fd with
  | None => fail (-1) EBADF w
  | Some s =>
      match peer s with
      | None => fail (-1) ENOTCONN w
      | Some _ =>
          if peer_closed s then fail (-1) EPIPE w
          else if len =? 0 then Returns 0 w
          else if tx_room s <=? 0 then
            if nonblock s then fail (-1) EWOULDBLOCK w else Blocks
          else
            let n := Z.min len (Z.min (tx_room s) (Z.of_nat (length buf))) in
            Returns n (with_fds (<[fd := push_tx (take (Z.to_nat n) buf) s]> (fds w)) w)
      end
  end.

(** [recv] delivers the first pending bytes, at most [len] of them, and
    removes them unless [MSG_PEEK] is set.  With nothing pending it returns 0
    once the peer has closed, fails with [EWOULDBLOCK] on a non-blocking
    socket, and waits on a blocking one.  The pending bytes are read as a
    stream: the boundaries of datagrams are not kept. *)
Definition posix_recv (fd len flags : Z) (w : world) : result world (Z * list byte) :=
  match fds w !! fd with
  | None => fail (-1, []) EBADF w
  | Some s =>
      match rx s with
      | [] =>
          if peer_closed s then Returns (0, []) w
          else if nonblock s then fail (-1, []) EWOULDBLOCK w
          else Blocks
      | _ :: _ =>
          let n := Z.min len (Z.of_nat (length (rx s))) in
          let data := take (Z.to_nat n) (rx s) in
          if Z.land flags MSG_PEEK =? 0 then
            Returns (n, data) (with_fds (<[fd := set_rx (drop (Z.to_nat n) (rx s)) s]> (fds w)) w)
          else Returns (n, data) w
      end
  end.

(** [getpeername] reports the peer of a connected socket. *)
Definition posix_getpeername (fd : Z) (w : world) : result world (Z * sockaddr_in) :=
  match fds w !! fd with
  | None => fail (-1, null_sockaddr) EBADF w
  | Some s =>
      match peer s with
      | None => fail (-1, null_sockaddr) ENOTCONN w
      | Some a => Returns (0, a) w
      end
  end.

(** [calloc] hands out the lowest unused block, zeroed, or null when the
    script makes it fail. *)
Definition posix_calloc (nmemb size : Z) (w : world) : result world Z :=
  let '(e, w) := pop_fault w in
  if negb (e =? 0) then fail 0 ENOMEM w
  else
    let p := lowest_free 1 (heap w) in
    Returns p (with_heap (<[p := null_sockaddr]> (heap w)) w).

(** [free] releases a live block and ignores the null pointer; on anything
    else its behaviour is undefined. *)
Definition posix_free (p : Z) (w : world) : result world unit :=
  if p =? 0 then Returns tt w
  else
    match heap w !! p with
    | None => Faults
    | Some _ => Returns tt (with_heap (delete p (heap w)) w)
    end.

(** A store through a pointer that names no live block is undefined. *)
Definition posix_store (p : Z) (f : sockaddr_field) (v : Z) (w : world) : result world unit :=
  match heap w !! p with
  | None => Faults
  | Some a => Returns tt (with_heap (<[p := set_field f v a]> (heap w)) w)
  end.

(** The reference operating system. *)
Definition posix : libc world := {|
  sys X c :=
    match c in call T return world -> result world T with
    | Socket d t p => posix_socket d t p
    | Fcntl fd cmd arg => posix_fcntl fd cmd arg
    | Setsockopt fd level optname v => posix_setsockopt fd level optname v
    | Close fd => posix_close fd
    | Send fd buf len flags => posix_send fd buf len flags
    | Recv fd len flags => posix_recv fd len flags
    | Getpeername fd => posix_getpeername fd
    | Calloc nmemb size => posix_calloc nmemb size
    | Free p => posix_free p
    | Store p f v => posix_store p f v
    end;
  errno_of := last_errno
|}.
End Posix.

(** ** Concrete states on Linux *)

(** The peer 127.0.0.1:9009 as [getpeername] reports it. *)
Definition loopback_peer : sockaddr_in := {|
  sin_family := @AF_INET linux;
  sin_port := @htons linux 9009;
  sin_addr := @htonl linux 2130706433
|}.

(** A connected socket with the given mode, pending bytes and peer state. *)
Definition connected (nb : bool) (pending : list byte) (closed : bool) : sock := {|
  nonblock := nb; reuseaddr := false; multicast_ttl := 1; groups := [];
  rx := pending; tx := []; tx_room := 65536; peer := Some loopback_peer;
  peer_closed := closed
|}.

(** A process whose only descriptor is [fd]. *)
Definition one_socket (fd : Z) (s : sock) : world :=
  {| fds := {[ fd := s ]}; heap := ∅; last_errno := 0; faults := [] |}.

(** Descriptor 5, non-blocking, peer alive, nothing pending. *)
Definition idle : world := one_socket 5 (connected true [] false).

(** Descriptor 5, non-blocking, peer alive, "PING" pending. *)
Definition ping : list byte := [x50; x49; x4e; x47].
Definition pinged : world := one_socket 5 (connected true ping false).

(** A socket whose peer is 255.255.255.254, and one whose peer is the limited
    broadcast address 255.255.255.255, both [AF_INET], port 9009. *)
Definition high_peer (last : Z) : sockaddr_in := {|
  sin_family := @AF_INET linux;
  sin_port := @htons linux 9009;
  sin_addr := @htonl linux (4294967040 + last)
|}.
Definition to_high_peer (last : Z) : world :=
  one_socket 5 {|
    nonblock := true; reuseaddr := false; multicast_ttl := 1; groups := [];
    rx := []; tx := []; tx_room := 65536; peer := Some (high_peer last);
    peer_closed := false
  |}.

(** A process that holds the address block 1 and no descriptor. *)
Definition holding : world :=
  {| fds := ∅; heap := {[ 1 := loopback_peer ]}; last_errno := 0; faults := [] |}.

(** A process with descriptor 0 open, in which the third call that can fail
    will fail with [EACCES] (13). *)
Definition refusing : world :=
  {| fds := {[ 0 := new_sock ]}; heap := ∅; last_errno := 0; faults := [0; 0; 13] |}.
Definition refused : world :=
  {| fds := {[ 0 := new_sock ]}; heap := ∅; last_errno := 13; faults := [] |}.
Definition refusal : list event :=
  [EvSocket 2 1 0 1; EvFcntl 1 4 2048 0; EvSetsockopt 1 1 2 (opt_int 1) (-1); EvClose 1 0].

(** The same process when the second call that can fail will fail with
    [EACCES]: the [fcntl] of a creation. *)
Definition denying : world :=
  {| fds := {[ 0 := new_sock ]}; heap := ∅; last_errno := 0; faults := [0; 13] |}.
Definition denied : world :=
  {| fds := {[ 0 := new_sock ]}; heap := ∅; last_errno := 13; faults := [] |}.
Definition denial : list event :=
  [EvSocket 2 2 0 1; EvFcntl 1 4 2048 (-1); EvClose 1 0].

(** ** The option and binding functions of [net.c] *)

(** The names of the system headers these functions use beyond [platform]. *)
Class options_h := {
  F_GETFL : Z;
  SO_SNDBUF : Z;
  SO_RCVBUF : Z;
  IPPROTO_TCP : Z;
  TCP_NODELAY : Z
}.

(** Their values on Linux. *)
Definition linux_options : options_h := {|
  F_GETFL := 3;
  SO_SNDBUF := 7;
  SO_RCVBUF := 8;
  IPPROTO_TCP := 6;
  TCP_NODELAY := 1
|}.

(** The two calls they make beyond [call]: [bind] with the address it is given
    and its length, and [getsockopt] on an [int] that holds [value] before the
    call, which hands back the return code and what the [int] holds after. *)
Inductive call_more : Type -> Type :=
| Bind (fd : Z) (addr : sockaddr_in) (addrlen : Z) : call_more Z
| Getsockopt (fd level optname value : Z) : call_more (Z * Z).

(** Function bodies over both kinds of call. *)
Inductive prog_more (A : Type) : Type :=
| Ret_more (a : A)
| Do_base {X : Type} (c : call X) (k : X -> prog_more A)
| Do_more {X : Type} (c : call_more X) (k : X -> prog_more A)
| Errno_more (k : Z -> prog_more A).

Arguments Ret_more {A} a.
Arguments Do_base {A X} c k.
Arguments Do_more {A X} c k.
Arguments Errno_more {A} k.

Fixpoint bind_more {A B : Type} (p : prog_more A) (f : A -> prog_more B) : prog_more B :=
  match p with
  | Ret_more a => f a
  | Do_base c k => Do_base c (fun x => bind_more (k x) f)
  | Do_more c k => Do_more c (fun x => bind_more (k x) f)
  | Errno_more k => Errno_more (fun e => bind_more (k e) f)
  end.

#[export] Instance prog_more_ret : MRet prog_more := @Ret_more.
#[export] Instance prog_more_bind : MBind prog_more := fun A B f p => bind_more p f.

(** A body over [call] alone is a body over both. *)
Fixpoint lift {A : Type} (p : prog A) : prog_more A :=
  match p with
  | Ret a => Ret_more a
  | Do c k => Do_base c (fun x => lift (k x))
  | Errno k => Errno_more (fun e => lift (k e))
  end.

Definition bind_call (fd : Z) (addr : sockaddr_in) (addrlen : Z) : prog_more Z :=
  Do_more (Bind fd addr addrlen) Ret_more.
Definition getsockopt (fd level optname value : Z) : prog_more (Z * Z) :=
  Do_more (Getsockopt fd level optname value) Ret_more.

(** An operating system that answers both kinds of call. *)
Record libc_more (W : Type) := {
  base : libc W;
  sys_more : forall X : Type, call_more X -> W -> result W X
}.

Arguments base {W} l.
Arguments sys_more {W} l {X} c w.

Fixpoint run_more {W A : Type} (os : libc_more W) (p : prog_more A) (w : W) : result W A :=
  match p with
  | Ret_more a => Returns a w
  | Do_base c k =>
      match sys (base os) c w with
      | Returns x w' => run_more os (k x) w'
      | Blocks => Blocks
      | Faults => Faults
      end
  | Do_more c k =>
      match sys_more os c w with
      | Returns x w' => run_more os (k x) w'
      | Blocks => Blocks
      | Faults => Faults
      end
  | Errno_more k => run_more os (k (errno_of (base os) w)) w
  end.

Section NetOptions.
Context {P : platform} {O : options_h}.

(** [net.c], lines 36-38. *)
Definition set_int_sockopt (fd level opt value : Z) : prog Z :=
  setsockopt fd level opt (opt_int value).

(** Lines 97-106; [addr] is a local [struct sockaddr_in] of 16 bytes. *)
Definition Java_io_questdb_network_Net_bindTcp (fd address port : Z) : prog_more bool :=
  let addr := {|
    sin_family := AF_INET;
    sin_port := htons (to_uint16 port);
    sin_addr := htonl (to_uint32 address)
  |} in
  r ← bind_call (to_int fd) addr sizeof_sockaddr_in;
  Ret_more (r =? 0).

(** Lines 108-111. *)
Definition Java_io_questdb_network_Net_bindUdp (fd ipv4Address port : Z) : prog_more bool :=
  Java_io_questdb_network_Net_bindTcp fd ipv4Address port.

(** Lines 188-201. *)
Definition Java_io_questdb_network_Net_configureNonBlocking (fd : Z) : prog Z :=
  flags ← fcntl (to_int fd) F_GETFL 0;
  if flags <? 0 then Ret flags
  else
    flags ← fcntl (to_int fd) F_SETFL (Z.lor flags O_NONBLOCK);
    if flags <? 0 then Ret flags
    else Ret 0.

(** Lines 216-219. *)
Definition Java_io_questdb_network_Net_setSndBuf (fd size : Z) : prog Z :=
  set_int_sockopt (to_int fd) SOL_SOCKET SO_SNDBUF size.

(** Lines 221-229. *)
Definition get_int_sockopt (fd level opt : Z) : prog_more Z :=
  let value := 0 in
  '(result, value) ← getsockopt fd level opt value;
  if result =? 0 then Ret_more value
  else Ret_more (-1).

(** Lines 242-245. *)
Definition Java_io_questdb_network_Net_getSndBuf (fd : Z) : prog_more Z :=
  get_int_sockopt (to_int fd) SOL_SOCKET SO_SNDBUF.

(** Lines 247-250. *)
Definition Java_io_questdb_network_Net_setRcvBuf (fd size : Z) : prog Z :=
  set_int_sockopt (to_int fd) SOL_SOCKET SO_RCVBUF size.

(** Lines 252-255. *)
Definition Java_io_questdb_network_Net_getRcvBuf (fd : Z) : prog_more Z :=
  get_int_sockopt (to_int fd) SOL_SOCKET SO_RCVBUF.

(** Lines 281-284; the [jboolean] is passed on as an [int], 1 for true. *)
Definition Java_io_questdb_network_Net_setTcpNoDelay (fd : Z) (noDelay : bool) : prog Z :=
  set_int_sockopt (to_int fd) IPPROTO_TCP TCP_NODELAY (Z.b2z noDelay).

(** Lines 286-289. *)
Definition Java_io_questdb_network_Net_getTcpNoDelay (fd : Z) : prog_more Z :=
  get_int_sockopt (to_int fd) IPPROTO_TCP TCP_NODELAY.
End NetOptions.

(** ** Two small operating systems *)

(** An operating system that knows one thing, the status flags of a
    descriptor, held as one word: [F_GETFL] (3 on Linux) reads the word,
    [F_SETFL] (4) replaces it, every other call fails. *)
Definition flag_word : libc Z := {|
  sys X c :=
    match c in call T return Z -> result Z T with
    | Fcntl _ cmd arg => fun w =>
        if cmd =? 3 then Returns w w
        else if cmd =? 4 then Returns 0 arg
        else Returns (-1) w
    | Socket _ _ _ | Setsockopt _ _ _ _ | Close _ | Send _ _ _ _ => fun w => Returns (-1) w
    | Recv _ _ _ => fun w => Returns (-1, []) w
    | Getpeername _ => fun w => Returns (-1, null_sockaddr) w
    | Calloc _ _ => fun w => Returns 0 w
    | Free _ | Store _ _ _ => fun w => Faults
    end;
  errno_of _ := 0
|}.

(** An operating system that keeps the [int] options it is given, by
    descriptor, level and name, and hands them back; a [bind] succeeds on a
    descriptor that is not negative; every other call fails. *)
Definition option_table : libc_more (gmap (Z * Z * Z) Z) := {|
  base := {|
    sys X c :=
      match c in call T return gmap (Z * Z * Z) Z -> result (gmap (Z * Z * Z) Z) T with
      | Setsockopt fd level optname v => fun w =>
          match v with
          | opt_int x => Returns 0 (<[(fd, level, optname) := x]> w)
          | _ => Returns (-1) w
          end
      | Socket _ _ _ | Fcntl _ _ _ | Close _ | Send _ _ _ _ => fun w => Returns (-1) w
      | Recv _ _ _ => fun w => Returns (-1, []) w
      | Getpeername _ => fun w => Returns (-1, null_sockaddr) w
      | Calloc _ _ => fun w => Returns 0 w
      | Free _ | Store _ _ _ => fun w => Faults
      end;
    errno_of _ := 0
  |};
  sys_more X c :=
    match c in call_more T return gmap (Z * Z * Z) Z -> result (gmap (Z * Z * Z) Z) T with
    | Bind fd _ _ => fun w => Returns (if fd <? 0 then -1 else 0) w
    | Getsockopt fd level optname value => fun w =>
        match w !! (fd, level, optname) with
        | Some x => Returns (0, x) w
        | None => Returns (-1, value) w
        end
    end
|}.

(** The creation functions: [socketTcp0] with its flag, or [socketUdp0]; and
    the socket each asks for. *)
Definition factory {P : platform} (tcp : option bool) : prog Z :=
  match tcp with
  | Some blocking => Java_io_questdb_network_Net_socketTcp0 blocking
  | None => Java_io_questdb_network_Net_socketUdp0
  end.
Definition requested (tcp : option bool) : sock :=
  match tcp with
  | Some true => new_sock
  | Some false => set_reuseaddr true (set_nonblock true new_sock)
  | None => set_nonblock true new_sock
  end.

(** A process with no descriptor and no heap block. *)
Definition bare : world := {| fds := ∅; heap := ∅; last_errno := 0; faults := [] |}.

(** Descriptor 5 connected to 192.168.0.1:9009, an address that is negative as
    a [jint]. *)
Definition lan_peer : world :=
  one_socket 5 {|
    nonblock := true; reuseaddr := false; multicast_ttl := 1; groups := [];
    rx := []; tx := []; tx_room := 65536;
    peer := Some (@built linux (-1062731775) 9009);
    peer_closed := false
  |}.

(** A process in which the next allocation fails with [ENOMEM] (12). *)
Definition exhausted : world := {| fds := ∅; heap := ∅; last_errno := 0; faults := [12] |}.

(** Descriptor 5, non-blocking, nothing pending, the peer has closed. *)
Definition hung_up : world := one_socket 5 (connected true [] true).


(** [option_table] with one habit of Linux: the size given for a send or
    receive buffer is stored doubled. *)
Definition doubling_table : libc_more (gmap (Z * Z * Z) Z) := {|
  base := {|
    sys X c :=
      match c in call T return gmap (Z * Z * Z) Z -> result (gmap (Z * Z * Z) Z) T with
      | Setsockopt fd level optname (opt_int x) => fun w =>
          if (level =? 1) && ((optname =? 7) || (optname =? 8))
          then Returns 0 (<[(fd, level, optname) := 2 * x]> w)
          else Returns 0 (<[(fd, level, optname) := x]> w)
      | c' => sys (base option_table) c'
      end;
    errno_of _ := 0
  |};
  sys_more X c := sys_more option_table c
|}.


(** * Properties *)

(** ** Integer conversions *)

Lemma to_jint_id (x : Z) : INT_MIN <= x <= INT_MAX -> to_jint x = x.
Proof.
  unfold to_jint, wrap_signed, INT_MIN, INT_MAX. intros Hx.
  change (2 ^ 32) with 4294967296. change (2 ^ (32 - 1)) with 2147483648.
  destruct (Z_lt_le_dec x 0) as [Hneg | Hpos].
  - replace (x mod 4294967296) with (x + 4294967296).
    + destruct (Z.ltb_spec (x + 4294967296) 2147483648); lia.
    + apply Z.mod_unique with (q := -1); lia.
  - rewrite Z.mod_small by lia.
    destruct (Z.ltb_spec x 2147483648); lia.
Qed.

Lemma to_jint_range (x : Z) : INT_MIN <= to_jint x <= INT_MAX.
Proof.
  unfold to_jint, wrap_signed, INT_MIN, INT_MAX.
  change (2 ^ 32) with 4294967296. change (2 ^ (32 - 1)) with 2147483648.
  pose proof (Z.mod_pos_bound x 4294967296 ltac:(lia)).
  cbv zeta. destruct (Z.ltb_spec (x mod 4294967296) 2147483648); lia.
Qed.

Lemma to_jint_mod (x : Z) : to_uint32 (to_jint x) = to_uint32 x.
Proof.
  unfold to_uint32, to_jint, wrap_unsigned, wrap_signed.
  change (2 ^ 32) with 4294967296. change (2 ^ (32 - 1)) with 2147483648.
  cbv zeta. destruct (Z.ltb_spec (x mod 4294967296) 2147483648).
  - apply Z.mod_mod. lia.
  - rewrite Zminus_mod, Z.mod_same, Z.sub_0_r by lia. rewrite !Z.mod_mod by lia. reflexivity.
Qed.

Lemma to_u_char_range (x : Z) : 0 <= to_u_char x < 256.
Proof. unfold to_u_char, wrap_unsigned. apply Z.mod_pos_bound. reflexivity. Qed.

(** ** Byte order *)

Lemma le_bytes_length (n : nat) (x : Z) : length (le_bytes n x) = n.
Proof. revert x. induction n as [| n IH]; intros x; simpl; [reflexivity | now rewrite IH]. Qed.

Lemma le_bytes_is_bytes (n : nat) (x : Z) : is_bytes (le_bytes n x).
Proof.
  revert x. induction n as [| n IH]; intros x; simpl; constructor.
  - apply Z.mod_pos_bound. reflexivity.
  - apply IH.
Qed.

Lemma le_value_bounds (l : list Z) : is_bytes l -> 0 <= le_value l < 256 ^ Z.of_nat (length l).
Proof.
  induction 1 as [| b l Hb _ IH]; simpl le_value; simpl length.
  - simpl. lia.
  - rewrite Nat2Z.inj_succ, Z.pow_succ_r by lia. lia.
Qed.

Lemma le_value_le_bytes (n : nat) (x : Z) : le_value (le_bytes n x) = x mod 256 ^ Z.of_nat n.
Proof.
  revert x. induction n as [| n IH]; intros x.
  - simpl. now rewrite Z.mod_1_r.
  - simpl le_bytes. simpl le_value. rewrite IH.
    rewrite Nat2Z.inj_succ, Z.pow_succ_r by lia.
    rewrite Z.rem_mul_r by lia. reflexivity.
Qed.

Lemma le_bytes_le_value (l : list Z) : is_bytes l -> le_bytes (length l) (le_value l) = l.
Proof.
  induction 1 as [| b l Hb _ IH]; simpl; [reflexivity |].
  replace (b + 256 * le_value l) with (b + le_value l * 256) by lia.
  f_equal.
  - rewrite Z.mod_add by lia. now apply Z.mod_small.
  - rewrite Z.div_add by lia. rewrite Z.div_small by lia. exact IH.
Qed.

Section ByteOrderFacts.
Context {P : platform}.

Lemma from_in_memory (n : nat) (x : Z) : from_memory (in_memory n x) = x mod 256 ^ Z.of_nat n.
Proof.
  unfold from_memory, in_memory, be_value, be_bytes.
  destruct big_endian; [rewrite rev_involutive |]; apply le_value_le_bytes.
Qed.

Lemma in_from_memory (l : list Z) : is_bytes l -> in_memory (length l) (from_memory l) = l.
Proof.
  intros Hl. unfold from_memory, in_memory, be_value, be_bytes.
  destruct big_endian.
  - rewrite <- (length_rev l), le_bytes_le_value, rev_involutive; [reflexivity |].
    apply Forall_rev, Hl.
  - now apply le_bytes_le_value.
Qed.

(** The memory image of [htonl x] is the big-endian encoding of [x]. *)
Lemma htonl_in_memory (x : Z) : in_memory 4 (htonl x) = be_bytes 4 x.
Proof.
  unfold htonl.
  assert (Hl : length (be_bytes 4 x) = 4%nat)
    by (unfold be_bytes; now rewrite length_rev, le_bytes_length).
  rewrite <- Hl at 1. apply in_from_memory.
  apply Forall_rev, le_bytes_is_bytes.
Qed.

Lemma htons_in_memory (x : Z) : in_memory 2 (htons x) = be_bytes 2 x.
Proof.
  unfold htons.
  assert (Hl : length (be_bytes 2 x) = 2%nat)
    by (unfold be_bytes; now rewrite length_rev, le_bytes_length).
  rewrite <- Hl at 1. apply in_from_memory.
  apply Forall_rev, le_bytes_is_bytes.
Qed.

Lemma ntohl_htonl (x : Z) : ntohl (htonl x) = to_uint32 x.
Proof.
  unfold ntohl. rewrite htonl_in_memory. unfold be_value, be_bytes.
  rewrite rev_involutive, le_value_le_bytes. reflexivity.
Qed.

Lemma ntohs_htons (x : Z) : ntohs (htons x) = to_uint16 x.
Proof.
  unfold ntohs. rewrite htons_in_memory. unfold be_value, be_bytes.
  rewrite rev_involutive, le_value_le_bytes. reflexivity.
Qed.

Lemma ntohl_range (y : Z) : 0 <= ntohl y < 2 ^ 32.
Proof.
  unfold ntohl, be_value.
  assert (H : is_bytes (rev (in_memory 4 y))).
  { apply Forall_rev. unfold in_memory, be_bytes.
    destruct big_endian; [apply Forall_rev |]; apply le_bytes_is_bytes. }
  apply le_value_bounds in H.
  replace (length (rev (in_memory 4 y))) with 4%nat in H; [exact H |].
  rewrite length_rev. unfold in_memory, be_bytes.
  destruct big_endian; [rewrite length_rev |]; now rewrite le_bytes_length.
Qed.

Lemma ntohs_range (y : Z) : 0 <= ntohs y < 2 ^ 16.
Proof.
  unfold ntohs, be_value.
  assert (H : is_bytes (rev (in_memory 2 y))).
  { apply Forall_rev. unfold in_memory, be_bytes.
    destruct big_endian; [apply Forall_rev |]; apply le_bytes_is_bytes. }
  apply le_value_bounds in H.
  replace (length (rev (in_memory 2 y))) with 2%nat in H; [exact H |].
  rewrite length_rev. unfold in_memory, be_bytes.
  destruct big_endian; [rewrite length_rev |]; now rewrite le_bytes_length.
Qed.
End ByteOrderFacts.

(** ** send, recv, peek and the liveness probe, for every operating system *)

Section IOOps.
Context {P : platform} {N : net_h} {W : Type} (os : libc W).

Lemma run_recv_flags (fd len flags n : Z) (buf : list byte) (w w1 : W)
    (body := fun flags : Z =>
       '(n, buf) ← recv (to_int fd) (to_size_t len) flags;
       if 0 <? n then Ret (to_jint n, buf)
       else if n =? 0 then Ret (EOTHERDISCONNECT, buf)
       else e ← errno; if e =? EWOULDBLOCK then Ret (ERETRY, buf) else Ret (EOTHERDISCONNECT, buf)) :
  sys os (Recv (to_int fd) (to_size_t len) flags) w = Returns (n, buf) w1 ->
  run os (body flags) w = Returns (read_outcome n (errno_of os w1), buf) w1.
Proof.
  intros Hsys. unfold body, read_outcome. cbn. rewrite Hsys. cbn.
  destruct (0 <? n); [reflexivity |].
  destruct (n =? 0); [reflexivity |]. cbn.
  destruct (errno_of os w1 =? EWOULDBLOCK); reflexivity.
Qed.

Lemma run_Net_recv (fd len n : Z) (buf : list byte) (w w1 : W) :
  sys os (Recv (to_int fd) (to_size_t len) 0) w = Returns (n, buf) w1 ->
  run os (Java_io_questdb_network_Net_recv fd len) w
  = Returns (read_outcome n (errno_of os w1), buf) w1.
Proof. apply run_recv_flags. Qed.

Lemma run_Net_peek (fd len n : Z) (buf : list byte) (w w1 : W) :
  sys os (Recv (to_int fd) (to_size_t len) MSG_PEEK) w = Returns (n, buf) w1 ->
  run os (Java_io_questdb_network_Net_peek fd len) w
  = Returns (read_outcome n (errno_of os w1), buf) w1.
Proof. apply run_recv_flags. Qed.

Lemma read_outcome_cases (n e : Z) :
  ERETRY <> EOTHERDISCONNECT ->
  let r := read_outcome n e in
  (0 < n -> r = to_jint n /\ (n <= INT_MAX -> r = n)) /\
  (n = 0 -> r = EOTHERDISCONNECT /\ r <> ERETRY) /\
  (n < 0 -> e = EWOULDBLOCK -> r = ERETRY /\ r <> EOTHERDISCONNECT) /\
  (n < 0 -> e <> EWOULDBLOCK -> r = EOTHERDISCONNECT).
Proof.
  intros Hne r. subst r. unfold read_outcome.
  destruct (Z.ltb_spec 0 n) as [Hpos | Hle].
  - split; [| repeat split; intros; lia].
    intros _. split; [reflexivity |].
    intros Hmax. apply to_jint_id. unfold INT_MIN. lia.
  - destruct (Z.eqb_spec n 0) as [Hz | Hnz].
    + repeat split; intros; try lia; congruence.
    + destruct (Z.eqb_spec e EWOULDBLOCK) as [He | He];
        repeat split; intros; try lia; congruence.
Qed.

(** C1. Whatever the operating system answers to the read: a count [n > 0]
    is returned as it is (as a [jint]; unchanged when it fits one, which a
    count within the requested length does); a count of 0, the orderly close
    of the peer, gives the Disconnected sentinel and not the Retry sentinel;
    a failure with [errno = EWOULDBLOCK] gives the Retry sentinel and not
    the Disconnected one; any other failure gives the Disconnected
    sentinel.  The buffer and the state are those the read left. *)
Theorem Net_recv_outcome (fd len n : Z) (buf : list byte) (w w1 : W) :
  ERETRY <> EOTHERDISCONNECT ->
  sys os (Recv (to_int fd) (to_size_t len) 0) w = Returns (n, buf) w1 ->
  exists r : Z,
    run os (Java_io_questdb_network_Net_recv fd len) w = Returns (r, buf) w1 /\
    (0 < n -> r = to_jint n /\ (n <= INT_MAX -> r = n)) /\
    (n = 0 -> r = EOTHERDISCONNECT /\ r <> ERETRY) /\
    (n < 0 -> errno_of os w1 = EWOULDBLOCK -> r = ERETRY /\ r <> EOTHERDISCONNECT) /\
    (n < 0 -> errno_of os w1 <> EWOULDBLOCK -> r = EOTHERDISCONNECT).
Proof.
  intros Hne Hsys. exists (read_outcome n (errno_of os w1)). split.
  - now apply run_Net_recv.
  - now apply read_outcome_cases.
Qed.

Lemma run_Net_send (fd : Z) (ptr : list byte) (len n : Z) (w w1 : W) :
  sys os (Send (to_int fd) ptr (to_size_t len) 0) w = Returns n w1 ->
  run os (Java_io_questdb_network_Net_send fd ptr len) w
  = Returns (if -1 <? n then to_jint n
             else if errno_of os w1 =? EWOULDBLOCK then ERETRY
             else EOTHERDISCONNECT) w1.
Proof.
  intros Hsys. unfold Java_io_questdb_network_Net_send. cbn. rewrite Hsys. cbn.
  destruct (-1 <? n); [reflexivity |]. cbn.
  destruct (errno_of os w1 =? EWOULDBLOCK); reflexivity.
Qed.

(** C3, as amended. Whatever the operating system answers to the send: a
    count [n >= 0] (0 included) is returned as it is; when the call fails,
    the result is the Retry sentinel exactly when [errno] is [EWOULDBLOCK]
    and the Disconnected sentinel exactly when it is anything else; the
    state is the one the call left. *)
Theorem Net_send_outcome (fd : Z) (ptr : list byte) (len n : Z) (w w1 : W) :
  ERETRY <> EOTHERDISCONNECT ->
  sys os (Send (to_int fd) ptr (to_size_t len) 0) w = Returns n w1 ->
  exists r : Z,
    run os (Java_io_questdb_network_Net_send fd ptr len) w = Returns r w1 /\
    (0 <= n -> r = to_jint n /\ (n <= INT_MAX -> r = n)) /\
    (n < 0 ->
       (r = ERETRY \/ r = EOTHERDISCONNECT) /\
       (r = ERETRY <-> errno_of os w1 = EWOULDBLOCK) /\
       (r = EOTHERDISCONNECT <-> errno_of os w1 <> EWOULDBLOCK)).
Proof.
  intros Hne Hsys. eexists. split; [exact (run_Net_send _ _ _ _ _ _ Hsys) |].
  destruct (Z.ltb_spec (-1) n) as [Hok | Hfail].
  - split; [| intros; lia].
    intros _. split; [reflexivity |].
    intros Hmax. apply to_jint_id. unfold INT_MIN. lia.
  - split; [intros; lia |]. intros _.
    destruct (Z.eqb_spec (errno_of os w1) EWOULDBLOCK) as [He | He].
    + repeat split; intros; try congruence. now left.
    + repeat split; intros; try congruence. now right.
Qed.

(** C2, as amended. Whatever the operating system answers to the one-byte
    read without flags (a read that consumes what it delivers), [isDead] is
    true exactly when the read returned 0 or failed, would-block included,
    and false exactly when it delivered a byte; nothing else is called. *)
Theorem Net_isDead_probe (fd n : Z) (buf : list byte) (w w1 : W) :
  sys os (Recv (to_int fd) 1 0) w = Returns (n, buf) w1 ->
  exists b : bool,
    run os (Java_io_questdb_network_Net_isDead fd) w = Returns b w1 /\
    (b = true <-> n = 0 \/ n < 0) /\
    (b = false <-> 0 < n).
Proof.
  intros Hsys. exists (n <? 1). split.
  - unfold Java_io_questdb_network_Net_isDead. cbn. now rewrite Hsys.
  - destruct (Z.ltb_spec n 1); split; split; intros; try lia; congruence.
Qed.
End IOOps.

(** ** peek against recv, on the reference model *)

Section PeekFacts.
Context {P : platform} {N : net_h}.

Lemma with_errno_same (w : world) : with_errno (last_errno w) w = w.
Proof. now destruct w. Qed.

(** A read with [MSG_PEEK] answers what the plain read answers and changes
    nothing but [errno]. *)
Lemma posix_recv_peek (fd len : Z) (w : world) :
  MSG_PEEK <> 0 ->
  posix_recv fd len MSG_PEEK w =
  match posix_recv fd len 0 w with
  | Returns a w1 => Returns a (with_errno (last_errno w1) w)
  | Blocks => Blocks
  | Faults => Faults
  end.
Proof.
  intros Hpeek. unfold posix_recv.
  rewrite Z.land_diag, Z.land_0_l.
  destruct (Z.eqb_spec MSG_PEEK 0) as [| _]; [contradiction |].
  change (0 =? 0) with true.
  destruct (fds w !! fd) as [s |]; [| reflexivity].
  destruct (rx s) as [| b l].
  - destruct (peer_closed s); [now rewrite with_errno_same |].
    destruct (nonblock s); reflexivity.
  - cbn. now rewrite with_errno_same.
Qed.

(** The plain read does not depend on the value [errno] had before it. *)
Lemma posix_recv_errno (fd len e n : Z) (buf : list byte) (w w1 : world) :
  0 <= len ->
  posix_recv fd len 0 w = Returns (n, buf) w1 ->
  exists w2 : world,
    posix_recv fd len 0 (with_errno e w) = Returns (n, buf) w2 /\
    (n < 0 -> last_errno w2 = last_errno w1).
Proof.
  intros Hlen. unfold posix_recv. cbn [fds with_errno].
  destruct (fds w !! fd) as [s |].
  - destruct (rx s) as [| b l].
    + destruct (peer_closed s).
      * intros [= <- <- <-]. eexists. split; [reflexivity | lia].
      * destruct (nonblock s); [| discriminate].
        intros [= <- <- <-]. eexists. split; reflexivity.
    + rewrite Z.land_0_l. change (0 =? 0) with true.
      intros [= <- <- <-]. eexists. split; [reflexivity |]. simpl length. lia.
  - intros [= <- <- <-]. eexists. split; reflexivity.
Qed.

Lemma read_outcome_errno (n e e' : Z) :
  (n < 0 -> e = e') -> read_outcome n e = read_outcome n e'.
Proof.
  intros He. unfold read_outcome.
  destruct (Z.ltb_spec 0 n); [reflexivity |].
  destruct (Z.eqb_spec n 0); [reflexivity |].
  now rewrite He by lia.
Qed.

(** C5. On every state of the reference model, [peek] returns what [recv]
    would return there: the same count or sentinel and the same bytes; it
    leaves every descriptor as it was, and a [recv] that follows it returns
    that count or sentinel and those bytes again.  Where [recv] would never
    return (a blocking socket, live peer, nothing pending), neither does
    [peek]. *)
Theorem Net_peek_then_recv (w : world) (fd len : Z) :
  MSG_PEEK <> 0 ->
  match run posix (Java_io_questdb_network_Net_recv fd len) w with
  | Returns (r, buf) _ =>
      exists w' : world,
        run posix (Java_io_questdb_network_Net_peek fd len) w = Returns (r, buf) w' /\
        fds w' = fds w /\
        exists w'' : world,
          run posix (Java_io_questdb_network_Net_recv fd len) w' = Returns (r, buf) w''
  | Blocks => run posix (Java_io_questdb_network_Net_peek fd len) w = Blocks
  | Faults => run posix (Java_io_questdb_network_Net_peek fd len) w = Faults
  end.
Proof.
  intros Hpeek.
  pose proof (posix_recv_peek (to_int fd) (to_size_t len) w Hpeek) as Hp.
  destruct (posix_recv (to_int fd) (to_size_t len) 0 w) as [[n buf] w1 | |] eqn:Hr.
  - rewrite (run_Net_recv posix fd len n buf w w1 Hr).
    exists (with_errno (last_errno w1) w). split; [| split].
    + now rewrite (run_Net_peek posix fd len n buf w _ Hp).
    + reflexivity.
    + assert (Hlen : 0 <= to_size_t len)
        by (unfold to_size_t, wrap_unsigned; apply Z.mod_pos_bound; reflexivity).
      destruct (posix_recv_errno _ _ (last_errno w1) _ _ _ _ Hlen Hr) as (w2 & Hr2 & He).
      exists w2. rewrite (run_Net_recv posix fd len n buf _ w2 Hr2).
      f_equal. f_equal. now apply read_outcome_errno.
  - unfold Java_io_questdb_network_Net_recv, Java_io_questdb_network_Net_peek.
    cbn. cbn in Hr, Hp. now rewrite Hr, Hp.
  - unfold Java_io_questdb_network_Net_recv, Java_io_questdb_network_Net_peek.
    cbn. cbn in Hr, Hp. now rewrite Hr, Hp.
Qed.
End PeekFacts.

(** ** Peer introspection, for every operating system *)

Section PeerInfo.
Context {P : platform} {W : Type} (os : libc W).

Lemma run_Net_getPeerIP (fd rc : Z) (a : sockaddr_in) (w w1 : W) :
  sys os (Getpeername (to_int fd)) w = Returns (rc, a) w1 ->
  run os (Java_io_questdb_network_Net_getPeerIP fd) w
  = Returns (if rc =? 0 then
               if sin_family a =? AF_INET then to_jint (ntohl (sin_addr a)) else -2
             else -1) w1.
Proof.
  intros Hsys. unfold Java_io_questdb_network_Net_getPeerIP. cbn. rewrite Hsys. cbn.
  destruct (rc =? 0); [| reflexivity].
  destruct (sin_family a =? AF_INET); reflexivity.
Qed.

Lemma run_Net_getPeerPort (fd rc : Z) (a : sockaddr_in) (w w1 : W) :
  sys os (Getpeername (to_int fd)) w = Returns (rc, a) w1 ->
  run os (Java_io_questdb_network_Net_getPeerPort fd) w
  = Returns (if rc =? 0 then
               if sin_family a =? AF_INET then to_jint (ntohs (sin_port a)) else -2
             else -1) w1.
Proof.
  intros Hsys. unfold Java_io_questdb_network_Net_getPeerPort. cbn. rewrite Hsys. cbn.
  destruct (rc =? 0); [| reflexivity].
  destruct (sin_family a =? AF_INET); reflexivity.
Qed.

Lemma to_jint_port (y : Z) : to_jint (ntohs y) = ntohs y.
Proof.
  pose proof (ntohs_range y) as H. change (2 ^ 16) with 65536 in H.
  apply to_jint_id. unfold INT_MIN, INT_MAX. lia.
Qed.

Lemma to_jint_addr (y : Z) : to_uint32 (to_jint (ntohl y)) = ntohl y.
Proof.
  rewrite to_jint_mod. unfold to_uint32, wrap_unsigned.
  apply Z.mod_small, ntohl_range.
Qed.

(** The [jint] image of an address is a sentinel only for the two highest
    addresses. *)
Lemma to_jint_addr_sentinel (y : Z) :
  ntohl y < 4294967294 -> to_jint (ntohl y) <> -1 /\ to_jint (ntohl y) <> -2.
Proof.
  intros Hlt. pose proof (to_jint_addr y) as Hback.
  split; intros Heq; rewrite Heq in Hback.
  - change (to_uint32 (-1)) with 4294967295 in Hback. lia.
  - change (to_uint32 (-2)) with 4294967294 in Hback. lia.
Qed.

(** C6, as amended. Whatever the operating system answers to [getpeername]:
    both functions return -1 when the lookup fails and -2 when it succeeds
    with a family other than [AF_INET]; otherwise [getPeerPort] returns the
    port in host order and [getPeerIP] the host-order address as a 32-bit
    two's-complement [jint].  For the port, -1 and -2 occur in those two cases
    only; for the address that holds unless the peer is an IPv4 peer at
    255.255.255.254 or 255.255.255.255. *)
Theorem Net_getPeer_outcome (fd rc : Z) (a : sockaddr_in) (w w1 : W) :
  sys os (Getpeername (to_int fd)) w = Returns (rc, a) w1 ->
  exists ip port : Z,
    run os (Java_io_questdb_network_Net_getPeerIP fd) w = Returns ip w1 /\
    run os (Java_io_questdb_network_Net_getPeerPort fd) w = Returns port w1 /\
    (rc <> 0 -> ip = -1 /\ port = -1) /\
    (rc = 0 -> sin_family a <> AF_INET -> ip = -2 /\ port = -2) /\
    (rc = 0 -> sin_family a = AF_INET ->
       ip = to_jint (ntohl (sin_addr a)) /\
       to_uint32 ip = ntohl (sin_addr a) /\
       port = ntohs (sin_port a)) /\
    (port = -1 <-> rc <> 0) /\
    (port = -2 <-> rc = 0 /\ sin_family a <> AF_INET) /\
    ((rc = 0 -> sin_family a = AF_INET -> ntohl (sin_addr a) < 4294967294) ->
       (ip = -1 <-> rc <> 0) /\
       (ip = -2 <-> rc = 0 /\ sin_family a <> AF_INET)).
Proof.
  intros Hsys. eexists. eexists.
  split; [exact (run_Net_getPeerIP _ _ _ _ _ Hsys) |].
  split; [exact (run_Net_getPeerPort _ _ _ _ _ Hsys) |].
  pose proof (ntohs_range (sin_port a)) as Hport. change (2 ^ 16) with 65536 in Hport.
  rewrite to_jint_port.
  pose proof (to_jint_addr (sin_addr a)) as Hback.
  pose proof (to_jint_addr_sentinel (sin_addr a)) as Hsent.
  destruct (Z.eqb_spec rc 0) as [Hrc | Hrc];
    [destruct (Z.eqb_spec (sin_family a) AF_INET) as [Hfam | Hfam] |];
    repeat (intros; split); intros;
    first [lia | congruence | tauto | intuition congruence].
Qed.
End PeerInfo.

(** ** Socket creation, for every operating system *)

Section SocketFactory.
Context {P : platform} {W : Type} (os : libc W).

(** One step of a logged run. *)
Lemma run_logged_Do {A X : Type} (c : call X) (k : X -> prog A) (w : W) (tr : list event) :
  run (logged os) (Do c k) (w, tr) =
  match sys os c w with
  | Returns x w1 => run (logged os) (k x) (w1, tr ++ [event_of c x])
  | Blocks => Blocks
  | Faults => Faults
  end.
Proof. cbn. destruct (sys os c w); reflexivity. Qed.

(** The run of a creation, call by call, from the answers of the operating
    system. *)
Local Ltac answers :=
  unfold create, Java_io_questdb_network_Net_socketUdp0,
    Java_io_questdb_network_Net_socketTcp0;
  cbn [negb mbind prog_bind bind socket fcntl setsockopt close];
  repeat match goal with
  | H : sys os ?c ?w = Returns _ _ |- context [run (logged os) (Do ?c _) (?w, _)] =>
      rewrite run_logged_Do, H; cbn [app event_of]
  | H : ?x < 0 |- context [?x <? 0] => rewrite (proj2 (Z.ltb_lt x 0) H)
  | H : 0 <= ?x |- context [?x <? 0] => rewrite (proj2 (Z.ltb_ge x 0) H)
  | H : 0 < ?x |- context [0 <? ?x] => rewrite (proj2 (Z.ltb_lt 0 x) H)
  | |- context [?b && true] => rewrite (andb_true_r b)
  end;
  cbn [run].

(** The answer of the operating system to a call is one answer. *)
Local Ltac same_answer :=
  repeat match goal with
  | H : sys os ?c ?w = Returns ?x ?w1, H' : sys os ?c ?w = Returns ?y ?w2 |- _ =>
      rewrite H in H'; injection H' as <- <-
  end.

(** C4. On an operating system whose creation calls return, once [socket] has
    returned a descriptor [fd > 0], [socketTcp0(false)] and [socketUdp0]
    return, and the answers of the operating system to the setup steps decide
    the outcome.  If it refuses [fcntl(fd, F_SETFL, O_NONBLOCK)], the result
    is -1 and the calls made are [socket], that [fcntl] and [close(fd)], in
    this order.  For TCP, if it accepts the [fcntl] and refuses
    [setsockopt(fd, SOL_SOCKET, SO_REUSEADDR, 1)], the result is -1 and the
    calls made are [socket], [fcntl], that [setsockopt] and [close(fd)].
    The result is -1 or [fd], and it is [fd] only when every step was made and
    accepted, with no [close]. *)
Theorem socket_setup_rollback (udp : bool) (fd : Z) (w w1 : W)
    (created := EvSocket AF_INET (if udp then SOCK_DGRAM else SOCK_STREAM) 0 fd)
    (flags := Fcntl fd F_SETFL O_NONBLOCK)
    (reuse := Setsockopt fd SOL_SOCKET SO_REUSEADDR (opt_int 1)) :
  creation_calls_return os ->
  sys os (Socket AF_INET (if udp then SOCK_DGRAM else SOCK_STREAM) 0) w = Returns fd w1 ->
  0 < fd ->
  exists (r : Z) (w' : W) (tr : list event),
    run (logged os) (create udp) (w, []) = Returns r (w', tr) /\
    (forall (r1 : Z) (w2 : W),
       sys os flags w1 = Returns r1 w2 -> r1 < 0 ->
       r = -1 /\
       exists c : Z,
         sys os (Close fd) w2 = Returns c w' /\
         tr = [created; event_of flags r1; EvClose fd c]) /\
    (forall (r1 r2 : Z) (w2 w3 : W),
       udp = false ->
       sys os flags w1 = Returns r1 w2 -> 0 <= r1 ->
       sys os reuse w2 = Returns r2 w3 -> r2 < 0 ->
       r = -1 /\
       exists c : Z,
         sys os (Close fd) w3 = Returns c w' /\
         tr = [created; event_of flags r1; event_of reuse r2; EvClose fd c]) /\
    (r = -1 \/ r = fd) /\
    (r = fd ->
     exists (r1 : Z) (w2 : W),
       sys os flags w1 = Returns r1 w2 /\ 0 <= r1 /\
       if udp then w' = w2 /\ tr = [created; event_of flags r1]
       else
         exists r2 : Z,
           sys os reuse w2 = Returns r2 w' /\ 0 <= r2 /\
           tr = [created; event_of flags r1; event_of reuse r2]).
Proof.
  intros Hos Hsock Hfd.
  destruct (Hos _ flags w1 eq_refl) as (r1 & w2 & Hflags).
  destruct (Z.ltb_spec r1 0) as [Hr1 | Hr1].
  - destruct (Hos _ (Close fd) w2 eq_refl) as (c & w3 & Hclose).
    exists (-1), w3, [created; event_of flags r1; EvClose fd c].
    split; [subst created flags; destruct udp; answers; reflexivity |].
    split; [intros; same_answer; split; [reflexivity | now exists c] |].
    split; [intros; same_answer; lia |].
    split; [now left | lia].
  - destruct udp.
    + exists fd, w2, [created; event_of flags r1].
      split; [subst created flags; answers; reflexivity |].
      split; [intros; same_answer; lia |].
      split; [discriminate |].
      split; [now right |].
      intros _. now exists r1, w2.
    + destruct (Hos _ reuse w2 eq_refl) as (r2 & w3 & Hreuse).
      destruct (Z.ltb_spec r2 0) as [Hr2 | Hr2].
      * destruct (Hos _ (Close fd) w3 eq_refl) as (c & w4 & Hclose).
        exists (-1), w4, [created; event_of flags r1; event_of reuse r2; EvClose fd c].
        split; [subst created flags reuse; answers; reflexivity |].
        split; [intros; same_answer; lia |].
        split; [intros; same_answer; split; [reflexivity | now exists c] |].
        split; [now left | lia].
      * exists fd, w3, [created; event_of flags r1; event_of reuse r2].
        split; [subst created flags reuse; answers; reflexivity |].
        split; [intros; same_answer; lia |].
        split; [intros; same_answer; lia |].
        split; [now right |].
        intros _. exists r1, w2. split; [exact Hflags |]. split; [exact Hr1 |].
        now exists r2.
Qed.
End SocketFactory.

(** ** The reference model hands out unused names *)

Section LowestFree.
Context {V : Type}.

Lemma first_free_ge (m : gmap Z V) (fuel : nat) (n : Z) : n <= first_free m n fuel.
Proof.
  revert n. induction fuel as [| fuel IH]; intros n; simpl; [lia |].
  destruct (m !! n); [| lia]. specialize (IH (n + 1)). lia.
Qed.

Lemma first_free_fresh (m : gmap Z V) (fuel : nat) (n : Z) :
  (size (filter (fun k => (n <= k)%Z) (dom m)) <= fuel)%nat ->
  m !! first_free m n fuel = None.
Proof.
  revert n. induction fuel as [| fuel IH]; intros n Hsize; simpl.
  - apply not_elem_of_dom. intros Hin.
    assert (Hempty : filter (fun k => (n <= k)%Z) (dom m) = ∅)
      by (apply leibniz_equiv, size_empty_inv; lia).
    assert (Hn : n ∈ filter (fun k => (n <= k)%Z) (dom m)) by (apply elem_of_filter; split; [lia | exact Hin]).
    rewrite Hempty in Hn. set_solver.
  - destruct (m !! n) as [v |] eqn:Hn; [| exact Hn].
    apply IH.
    assert (Hsub : filter (fun k => (n + 1 <= k)%Z) (dom m) ⊂ filter (fun k => (n <= k)%Z) (dom m)).
    { split.
      - intros k Hk. apply elem_of_filter in Hk as [Hle Hk].
        apply elem_of_filter. split; [lia | exact Hk].
      - intros Hback. specialize (Hback n).
        rewrite !elem_of_filter in Hback.
        destruct Hback as [Hbad _]; [split; [lia | apply elem_of_dom; eauto] | lia]. }
    apply subset_size in Hsub. lia.
Qed.

Lemma lowest_free_fresh (from : Z) (m : gmap Z V) : m !! lowest_free from m = None.
Proof.
  apply first_free_fresh. rewrite <- size_dom.
  apply subseteq_size. intros k Hk. now apply elem_of_filter in Hk as [_ Hk].
Qed.

Lemma lowest_free_ge (from : Z) (m : gmap Z V) : from <= lowest_free from m.
Proof. apply first_free_ge. Qed.
End LowestFree.

(** ** Building and freeing addresses *)

Section AddressBuilder.
Context {P : platform}.

Lemma heap_pop_fault (w : world) : heap (pop_fault w).2 = heap w.
Proof. unfold pop_fault. now destruct (faults w). Qed.

Lemma run_Net_sockaddr (w : world) (address port : Z) :
  (pop_fault w).1 = 0 ->
  run posix (Java_io_questdb_network_Net_sockaddr address port) w
  = Returns (lowest_free 1 (heap w))
      (with_heap (<[lowest_free 1 (heap w) := built address port]> (heap w)) (pop_fault w).2).
Proof.
  intros Hok. unfold Java_io_questdb_network_Net_sockaddr. cbn.
  unfold posix_calloc. pose proof (heap_pop_fault w) as Hheap.
  destruct (pop_fault w) as [e w0]. cbn in Hok, Hheap. subst e. cbn.
  unfold posix_store. cbn. rewrite Hheap.
  rewrite lookup_insert_eq. cbn. rewrite lookup_insert_eq. cbn.
  rewrite lookup_insert_eq. cbn. rewrite !insert_insert_eq. reflexivity.
Qed.

(** C7. When the allocation succeeds, [sockaddr] returns a fresh non-null
    block holding a descriptor whose family is [AF_INET] and whose address and
    port are [htonl] and [htons] of the arguments (taken as [uint32_t] and
    [uint16_t]).  These are the network-order conversions: the images of the
    two fields in memory are the big-endian encodings of the host-order
    values, and [ntohl] and [ntohs] give the host-order values back. *)
Theorem Net_sockaddr_builds (w : world) (address port : Z) :
  (pop_fault w).1 = 0 ->
  exists (p : Z) (w' : world) (a : sockaddr_in),
    run posix (Java_io_questdb_network_Net_sockaddr address port) w = Returns p w' /\
    p <> 0 /\
    heap w !! p = None /\
    heap w' = <[p := a]> (heap w) /\
    fds w' = fds w /\
    sin_family a = AF_INET /\
    sin_addr a = htonl (to_uint32 address) /\
    sin_port a = htons (to_uint16 port) /\
    in_memory 4 (sin_addr a) = be_bytes 4 (to_uint32 address) /\
    in_memory 2 (sin_port a) = be_bytes 2 (to_uint16 port) /\
    ntohl (sin_addr a) = to_uint32 address /\
    ntohs (sin_port a) = to_uint16 port.
Proof.
  intros Hok. exists (lowest_free 1 (heap w)). eexists. exists (built address port).
  split; [now apply run_Net_sockaddr |].
  split; [pose proof (lowest_free_ge 1 (heap w)); lia |].
  split; [apply lowest_free_fresh |].
  split; [reflexivity |].
  split; [cbn; unfold pop_fault; now destruct (faults w) |].
  cbn [built sin_family sin_addr sin_port].
  repeat split.
  - apply htonl_in_memory.
  - apply htons_in_memory.
  - rewrite ntohl_htonl. unfold to_uint32, wrap_unsigned. apply Z.mod_mod. lia.
  - rewrite ntohs_htons. unfold to_uint16, wrap_unsigned. apply Z.mod_mod. lia.
Qed.

Lemma run_Net_freeSockAddr (w : world) (p : Z) (a : sockaddr_in) :
  heap w !! p = Some a ->
  p <> 0 ->
  run posix (Java_io_questdb_network_Net_freeSockAddr p) w
  = Returns tt (with_heap (delete p (heap w)) w).
Proof.
  intros Hlive Hp. unfold Java_io_questdb_network_Net_freeSockAddr.
  destruct (Z.eqb_spec p 0) as [| _]; [contradiction |]. cbn.
  unfold posix_free. destruct (Z.eqb_spec p 0) as [| _]; [contradiction |].
  now rewrite Hlive.
Qed.

(** On the null handle [freeSockAddr] makes no call at all. *)
Lemma run_Net_freeSockAddr_null {W : Type} (os : libc W) (w : W) :
  run os (Java_io_questdb_network_Net_freeSockAddr 0) w = Returns tt w.
Proof. reflexivity. Qed.

(** C8. [freeSockAddr] on a live address releases its block and touches
    nothing else; on the null handle it is a no-op that makes no call and
    changes no state, on every operating system and so also right after the
    release, when the caller has replaced the handle by null. *)
Theorem Net_freeSockAddr_releases {W : Type} (os : libc W) (w0 : W)
    (w : world) (p : Z) (a : sockaddr_in) :
  heap w !! p = Some a ->
  p <> 0 ->
  exists w' : world,
    run posix (Java_io_questdb_network_Net_freeSockAddr p) w = Returns tt w' /\
    heap w' = delete p (heap w) /\
    heap w' !! p = None /\
    fds w' = fds w /\
    run posix (Java_io_questdb_network_Net_freeSockAddr 0) w' = Returns tt w' /\
    run (logged os) (Java_io_questdb_network_Net_freeSockAddr 0) (w0, [])
    = Returns tt (w0, []).
Proof.
  intros Hlive Hp. eexists.
  split; [now apply run_Net_freeSockAddr with (a := a) |].
  cbn [heap fds with_heap]. repeat split. apply lookup_delete_eq.
Qed.

(** X9. Building an address and freeing it leaves the heap as it was. *)
Lemma build_then_free (w : world) (address port : Z) :
  (pop_fault w).1 = 0 ->
  exists (p : Z) (w1 w2 : world),
    run posix (Java_io_questdb_network_Net_sockaddr address port) w = Returns p w1 /\
    run posix (Java_io_questdb_network_Net_freeSockAddr p) w1 = Returns tt w2 /\
    heap w2 = heap w.
Proof.
  intros Hok. rewrite (run_Net_sockaddr _ _ _ Hok).
  eexists. eexists. eexists. split; [reflexivity |].
  pose proof (lowest_free_ge 1 (heap w)) as Hge.
  split.
  - apply run_Net_freeSockAddr with (a := built address port); [| lia].
    cbn. apply lookup_insert_eq.
  - cbn. rewrite delete_insert_eq. apply delete_id. apply lowest_free_fresh.
Qed.

(** X14. What C rules out: freeing a block twice has no defined behaviour. *)
Lemma free_twice_faults (w : world) (p : Z) (a : sockaddr_in) :
  heap w !! p = Some a ->
  p <> 0 ->
  run posix (x ← Java_io_questdb_network_Net_freeSockAddr p;
             Java_io_questdb_network_Net_freeSockAddr p) w = Faults.
Proof.
  intros Hlive Hp. unfold Java_io_questdb_network_Net_freeSockAddr.
  destruct (Z.eqb_spec p 0) as [| _]; [contradiction |]. cbn.
  unfold posix_free. destruct (Z.eqb_spec p 0) as [| _]; [contradiction |].
  rewrite Hlive. cbn. now rewrite lookup_delete_eq.
Qed.
End AddressBuilder.

(** ** Multicast options, for every operating system *)

Section MulticastOps.
Context {P : platform} {W : Type} (os : libc W).

(** C9. Whatever the operating system answers to the membership request, with
    0 for success and -1 for failure: [join] returns true exactly when the
    request succeeded and false exactly when it failed.  The request is the
    only call [join] makes, so after a failed [join] the handle is in the state
    the failed request left it in: it is not closed and not reconfigured. *)
Theorem Net_join_outcome (fd bindAddress groupAddress ret : Z) (w w1 : W) (tr : list event) :
  sys os (membership_request fd bindAddress groupAddress) w = Returns ret w1 ->
  ret = 0 \/ ret = -1 ->
  exists r : bool,
    run (logged os) (Java_io_questdb_network_Net_join fd bindAddress groupAddress) (w, tr)
    = Returns r (w1, tr ++ [event_of (membership_request fd bindAddress groupAddress) ret]) /\
    run os (Java_io_questdb_network_Net_join fd bindAddress groupAddress) w = Returns r w1 /\
    (r = true <-> ret = 0) /\
    (r = false <-> ret = -1).
Proof.
  intros Hsys Hret. exists (if ret <? 0 then false else true).
  unfold membership_request in Hsys.
  split; [| split].
  - unfold Java_io_questdb_network_Net_join. cbn. now rewrite Hsys.
  - unfold Java_io_questdb_network_Net_join. cbn. now rewrite Hsys.
  - destruct Hret as [-> | ->]; cbn; split; split; intros; try lia; congruence.
Qed.

(** C10. Whatever the operating system answers: the one call
    [setMulticastTtl] makes is [setsockopt(IP_MULTICAST_TTL)] with the single
    byte [ttl mod 256], and the result is 0 when that call returned 0 and -1
    otherwise; a run with an argument congruent to [ttl] modulo 256 is the
    same run: the same call, the same result, the same final state. *)
Theorem Net_setMulticastTtl_truncates (fd ttl ret : Z) (w w1 : W) (tr : list event) :
  sys os (Setsockopt (to_int fd) IPPROTO_IP IP_MULTICAST_TTL (opt_u_char (ttl mod 256))) w
  = Returns ret w1 ->
  0 <= ttl mod 256 < 256 /\
  run (logged os) (Java_io_questdb_network_Net_setMulticastTtl fd ttl) (w, tr)
  = Returns (if ret =? 0 then 0 else -1)
      (w1, tr ++ [EvSetsockopt (to_int fd) IPPROTO_IP IP_MULTICAST_TTL
                    (opt_u_char (ttl mod 256)) ret]) /\
  (forall ttl' : Z,
     ttl' mod 256 = ttl mod 256 ->
     run (logged os) (Java_io_questdb_network_Net_setMulticastTtl fd ttl') (w, tr)
     = run (logged os) (Java_io_questdb_network_Net_setMulticastTtl fd ttl) (w, tr)).
Proof.
  intros Hsys. split; [apply Z.mod_pos_bound; lia |]. split.
  - unfold Java_io_questdb_network_Net_setMulticastTtl. cbn.
    change (to_u_char ttl) with (ttl mod 256). rewrite Hsys. cbn.
    destruct (Z.eqb_spec ret 0) as [-> | Hne]; reflexivity.
  - intros ttl' Hsame.
    unfold Java_io_questdb_network_Net_setMulticastTtl.
    change (to_u_char ttl') with (ttl' mod 256). change (to_u_char ttl) with (ttl mod 256).
    now rewrite Hsame.
Qed.
End MulticastOps.

(** ** Multicast options on the reference model *)

Section MulticastPosix.
Context {P : platform}.

(** A failed [setsockopt] leaves every descriptor and every heap block as it
    was. *)
Lemma posix_setsockopt_failure (fd level optname ret : Z) (v : optval) (w w1 : world) :
  posix_setsockopt fd level optname v w = Returns ret w1 ->
  ret < 0 ->
  fds w1 = fds w /\ heap w1 = heap w.
Proof.
  unfold posix_setsockopt, fail.
  destruct (pop_fault w) as [e w0] eqn:Hpop.
  assert (Hsame : fds w0 = fds w /\ heap w0 = heap w).
  { unfold pop_fault in Hpop. destruct (faults w); injection Hpop as <- <-; now split. }
  destruct (fds w0 !! fd) as [s |]; [| intros [= <- <-] _; exact Hsame].
  destruct (negb (e =? 0)); [intros [= <- <-] _; exact Hsame |].
  destruct (apply_option level optname v s); intros [= <- <-] Hneg; [exact Hsame | lia].
Qed.

(** X17. After a failed [join] the descriptors are what they were. *)
Lemma Net_join_failure_keeps_sockets (fd bindAddress groupAddress : Z) (w w' : world) :
  run posix (Java_io_questdb_network_Net_join fd bindAddress groupAddress) w
  = Returns false w' ->
  fds w' = fds w /\ heap w' = heap w.
Proof.
  unfold Java_io_questdb_network_Net_join. cbn.
  destruct (posix_setsockopt _ _ _ _ w) as [ret w1 | |] eqn:Hsys; [| discriminate | discriminate].
  cbn. destruct (Z.ltb_spec ret 0) as [Hneg | Hok]; [| discriminate].
  intros [= <-]. now apply posix_setsockopt_failure in Hsys.
Qed.

(** X18. The time-to-live the kernel ends up with is [ttl mod 256]. *)
Lemma Net_setMulticastTtl_stored (fd ttl : Z) (w w' : world) :
  run posix (Java_io_questdb_network_Net_setMulticastTtl fd ttl) w = Returns 0 w' ->
  SOL_SOCKET <> IPPROTO_IP \/ SO_REUSEADDR <> IP_MULTICAST_TTL ->
  exists s : sock, fds w' !! to_int fd = Some s /\ multicast_ttl s = ttl mod 256.
Proof.
  intros Hrun Hdistinct.
  unfold Java_io_questdb_network_Net_setMulticastTtl in Hrun. cbn in Hrun.
  change (to_u_char ttl) with (ttl mod 256) in Hrun.
  unfold posix_setsockopt, fail in Hrun.
  destruct (pop_fault w) as [e w0].
  destruct (fds w0 !! to_int fd) as [s |]; [| discriminate].
  destruct (negb (e =? 0)); [discriminate |].
  unfold apply_option in Hrun.
  assert (Hfirst : (IPPROTO_IP =? SOL_SOCKET) && (IP_MULTICAST_TTL =? SO_REUSEADDR) = false).
  { apply andb_false_iff. destruct Hdistinct as [H | H]; [left | right]; apply Z.eqb_neq; congruence. }
  rewrite Hfirst, !Z.eqb_refl in Hrun. cbn in Hrun.
  injection Hrun as <-. eexists. split; [cbn; apply lookup_insert_eq | reflexivity].
Qed.
End MulticastPosix.

(** ** Reads and creations on the reference model *)

Section PosixScenarios.
Context {P : platform} {N : net_h}.


(** X16. Once the peer has closed and everything was read, [recv] returns the
    Disconnected sentinel. *)
Lemma Net_recv_closed_disconnected (w : world) (fd len : Z) (s : sock) :
  fds w !! to_int fd = Some s ->
  rx s = [] -> peer_closed s = true ->
  run posix (Java_io_questdb_network_Net_recv fd len) w = Returns (EOTHERDISCONNECT, []) w.
Proof.
  intros Hfd Hrx Hpeer.
  rewrite (run_Net_recv posix fd len 0 [] w w); [reflexivity |].
  cbn. unfold posix_recv. now rewrite Hfd, Hrx, Hpeer.
Qed.

(** What the liveness probe does on an open descriptor: with a byte pending it
    consumes that byte and answers false; with nothing pending it answers true,
    whether the peer has closed or the socket is non-blocking, and never
    returns on a blocking socket whose peer stays silent. *)
Lemma Net_isDead_on_socket (w : world) (fd : Z) (s : sock) :
  fds w !! to_int fd = Some s ->
  run posix (Java_io_questdb_network_Net_isDead fd) w =
  match rx s with
  | b :: rest => Returns false (with_fds (<[to_int fd := set_rx rest s]> (fds w)) w)
  | [] =>
      if peer_closed s then Returns true w
      else if nonblock s then Returns true (with_errno EWOULDBLOCK w)
      else Blocks
  end.
Proof.
  intros Hfd. unfold Java_io_questdb_network_Net_isDead. cbn.
  unfold posix_recv. rewrite Hfd.
  destruct (rx s) as [| b rest].
  - destruct (peer_closed s); [reflexivity |]. destruct (nonblock s); reflexivity.
  - rewrite Z.land_0_l. cbn [Z.eqb length].
    replace (1 `min` Z.of_nat (S (length rest))) with 1 by lia. reflexivity.
Qed.

(** X7. When [socket] hands out descriptor 0, the creations skip every setup step
    and return 0. *)
Lemma create_descriptor_zero {W : Type} (os : libc W) (udp : bool) (w w1 : W) :
  sys os (Socket AF_INET (if udp then SOCK_DGRAM else SOCK_STREAM) 0) w = Returns 0 w1 ->
  run (logged os) (create udp) (w, [])
  = Returns 0 (w1, [EvSocket AF_INET (if udp then SOCK_DGRAM else SOCK_STREAM) 0 0]).
Proof.
  intros Hsys. destruct udp; unfold create, Java_io_questdb_network_Net_socketUdp0,
    Java_io_questdb_network_Net_socketTcp0; cbn; now rewrite Hsys.
Qed.
End PosixScenarios.

(** The reference model answers every creation call. *)
Lemma posix_creation_calls_return {P : platform} : creation_calls_return posix.
Proof.
  intros X c w Hc. destruct c; try discriminate Hc; cbn.
  - unfold posix_socket, fail. destruct (pop_fault w) as [e w0].
    destruct (negb (e =? 0)); eexists; eexists; reflexivity.
  - unfold posix_fcntl, fail. destruct (pop_fault w) as [e w0].
    destruct (fds w0 !! fd); [| eexists; eexists; reflexivity].
    destruct (negb (e =? 0)); [eexists; eexists; reflexivity |].
    destruct (cmd =? F_SETFL); eexists; eexists; reflexivity.
  - unfold posix_setsockopt, fail. destruct (pop_fault w) as [e w0].
    destruct (fds w0 !! fd); [| eexists; eexists; reflexivity].
    destruct (negb (e =? 0)); [eexists; eexists; reflexivity |].
    destruct (apply_option level optname v s); eexists; eexists; reflexivity.
  - unfold posix_close, fail.
    destruct (fds w !! fd); eexists; eexists; reflexivity.
Qed.

(** ** A failed creation leaks no descriptor, on the reference model *)

Section NoLeak.
Context {P : platform}.

Lemma pop_fault_fds (w w0 : world) (e : Z) : pop_fault w = (e, w0) -> fds w0 = fds w.
Proof. unfold pop_fault. destruct (faults w); now intros [= <- <-]. Qed.

Lemma posix_close_new (fd : Z) (s : sock) (m : gmap Z sock) (w : world) :
  m !! fd = None ->
  fds w = <[fd := s]> m ->
  exists w' : world, posix_close fd w = Returns 0 w' /\ fds w' = m.
Proof.
  intros Hfresh Hw. unfold posix_close. rewrite Hw, lookup_insert_eq.
  eexists. split; [reflexivity |]. cbn. rewrite delete_insert_eq. now apply delete_id.
Qed.

Lemma posix_fcntl_new (fd cmd arg : Z) (s : sock) (m : gmap Z sock) (w : world) :
  fds w = <[fd := s]> m ->
  exists (r : Z) (s' : sock) (w' : world),
    posix_fcntl fd cmd arg w = Returns r w' /\ fds w' = <[fd := s']> m.
Proof.
  intros Hw. unfold posix_fcntl, fail.
  destruct (pop_fault w) as [e w0] eqn:Hpop. apply pop_fault_fds in Hpop.
  rewrite Hpop, Hw, lookup_insert_eq.
  destruct (negb (e =? 0));
    [do 3 eexists; split; [reflexivity | cbn; rewrite Hpop; exact Hw] |].
  destruct (cmd =? F_SETFL); do 3 eexists; (split; [reflexivity |]); cbn.
  - now rewrite insert_insert_eq.
  - rewrite Hpop. exact Hw.
Qed.

Lemma posix_setsockopt_new (fd level optname : Z) (v : optval) (s : sock)
    (m : gmap Z sock) (w : world) :
  fds w = <[fd := s]> m ->
  exists (r : Z) (s' : sock) (w' : world),
    posix_setsockopt fd level optname v w = Returns r w' /\ fds w' = <[fd := s']> m.
Proof.
  intros Hw. unfold posix_setsockopt, fail.
  destruct (pop_fault w) as [e w0] eqn:Hpop. apply pop_fault_fds in Hpop.
  rewrite Hpop, Hw, lookup_insert_eq.
  destruct (negb (e =? 0));
    [do 3 eexists; split; [reflexivity | cbn; rewrite Hpop; exact Hw] |].
  destruct (apply_option level optname v s); do 3 eexists; (split; [reflexivity |]); cbn.
  - rewrite Hpop. exact Hw.
  - now rewrite insert_insert_eq.
Qed.

(** Whenever a creation returns -1, the descriptor table is what it was before
    the call: a descriptor that was created and could not be configured is
    gone again. *)
Lemma create_failure_restores (udp : bool) (w w' : world) :
  run posix (create udp) w = Returns (-1) w' -> fds w' = fds w.
Proof.
  assert (Hsock : forall type : Z,
    (exists w1, posix_socket AF_INET type 0 w = Returns (-1) w1 /\ fds w1 = fds w) \/
    (exists fd w1, posix_socket AF_INET type 0 w = Returns fd w1 /\ 0 <= fd /\
       fds w !! fd = None /\ fds w1 = <[fd := new_sock]> (fds w))).
  { intros type. unfold posix_socket, fail.
    destruct (pop_fault w) as [e w0] eqn:Hpop. apply pop_fault_fds in Hpop.
    destruct (negb (e =? 0)).
    - left. eexists. split; [reflexivity | exact Hpop].
    - right. do 2 eexists. split; [reflexivity |]. rewrite Hpop.
      split; [apply lowest_free_ge |]. split; [apply lowest_free_fresh | reflexivity]. }
  destruct udp; unfold create, Java_io_questdb_network_Net_socketUdp0,
    Java_io_questdb_network_Net_socketTcp0; cbn [negb].
  - destruct (Hsock SOCK_DGRAM) as [(w1 & Hs & Hfds) | (fd & w1 & Hs & Hfd & Hfresh & Hfds)];
      cbn; rewrite Hs; cbn.
    + now intros [= <-].
    + destruct (Z.ltb_spec 0 fd); [| cbn; intros [= ? ?]; lia].
      destruct (posix_fcntl_new fd F_SETFL O_NONBLOCK _ _ _ Hfds) as (r & s' & w2 & Hf & Hfds2).
      cbn. rewrite Hf. destruct (r <? 0); [| cbn; intros [= ? ?]; lia].
      destruct (posix_close_new fd s' _ w2 Hfresh Hfds2) as (w3 & Hc & Hfds3).
      cbn. rewrite Hc. cbn. now intros [= <-].
  - destruct (Hsock SOCK_STREAM) as [(w1 & Hs & Hfds) | (fd & w1 & Hs & Hfd & Hfresh & Hfds)];
      cbn; rewrite Hs; cbn.
    + now intros [= <-].
    + rewrite andb_true_r. destruct (Z.ltb_spec 0 fd); [| cbn; intros [= ? ?]; lia].
      destruct (posix_fcntl_new fd F_SETFL O_NONBLOCK _ _ _ Hfds) as (r & s' & w2 & Hf & Hfds2).
      cbn. rewrite Hf. destruct (r <? 0).
      * destruct (posix_close_new fd s' _ w2 Hfresh Hfds2) as (w3 & Hc & Hfds3).
        cbn. rewrite Hc. cbn. now intros [= <-].
      * destruct (posix_setsockopt_new fd SOL_SOCKET SO_REUSEADDR (opt_int 1) _ _ _ Hfds2)
          as (r' & s'' & w3 & Hso & Hfds3).
        cbn. rewrite Hso. destruct (r' <? 0); [| cbn; intros [= ? ?]; lia].
        destruct (posix_close_new fd s'' _ w3 Hfresh Hfds3) as (w4 & Hc & Hfds4).
        cbn. rewrite Hc. cbn. now intros [= <-].
Qed.
End NoLeak.

(** * Further properties of the code *)

(** ** Integer conversions, continued *)

Lemma to_jint_of_uint32 (x : Z) : INT_MIN <= x <= INT_MAX -> to_jint (to_uint32 x) = x.
Proof.
  intros Hx. rewrite <- (to_jint_id x Hx) at 2.
  unfold to_jint, to_uint32, wrap_signed, wrap_unsigned.
  now rewrite Z.mod_mod by lia.
Qed.

(** ** Status flags, for every operating system *)

Section StatusFlags.
Context {P : platform} {O : options_h} {W : Type} (os : libc W).

(** X1. [configureNonBlocking] first reads the status flags.  If that fails it
    returns the negative code and makes no second call.  Otherwise it sets the
    flags it has read with [O_NONBLOCK] or-ed in, and returns 0 when the set
    succeeds and the negative code of the set when it fails. *)
Theorem Net_configureNonBlocking_outcome (fd flags : Z) (w w1 : W) (tr : list event) :
  sys os (Fcntl (to_int fd) F_GETFL 0) w = Returns flags w1 ->
  (flags < 0 ->
     run (logged os) (Java_io_questdb_network_Net_configureNonBlocking fd) (w, tr)
     = Returns flags (w1, tr ++ [EvFcntl (to_int fd) F_GETFL 0 flags])) /\
  (0 <= flags ->
     forall (r : Z) (w2 : W),
       sys os (Fcntl (to_int fd) F_SETFL (Z.lor flags O_NONBLOCK)) w1 = Returns r w2 ->
       run (logged os) (Java_io_questdb_network_Net_configureNonBlocking fd) (w, tr)
       = Returns (if r <? 0 then r else 0)
           (w2, tr ++ [EvFcntl (to_int fd) F_GETFL 0 flags;
                       EvFcntl (to_int fd) F_SETFL (Z.lor flags O_NONBLOCK) r])).
Proof.
  intros Hget. unfold Java_io_questdb_network_Net_configureNonBlocking. split.
  - intros Hneg. cbn. rewrite Hget. cbn.
    destruct (Z.ltb_spec flags 0); [reflexivity | lia].
  - intros Hok r w2 Hset. cbn. rewrite Hget. cbn.
    destruct (Z.ltb_spec flags 0); [lia |]. cbn. rewrite Hset. cbn.
    rewrite <- app_assoc. destruct (r <? 0); reflexivity.
Qed.

(** X2. Two calls in a row, on an operating system that reports the flags it
    was last given: the second call sets the very word the first one set, so
    repeating [configureNonBlocking] changes nothing and no flag is lost. *)
Theorem Net_configureNonBlocking_twice (fd flags r r' : Z) (w w1 w2 w3 w4 : W) :
  0 <= O_NONBLOCK ->
  0 <= flags ->
  0 <= r ->
  sys os (Fcntl (to_int fd) F_GETFL 0) w = Returns flags w1 ->
  sys os (Fcntl (to_int fd) F_SETFL (Z.lor flags O_NONBLOCK)) w1 = Returns r w2 ->
  sys os (Fcntl (to_int fd) F_GETFL 0) w2 = Returns (Z.lor flags O_NONBLOCK) w3 ->
  sys os (Fcntl (to_int fd) F_SETFL (Z.lor flags O_NONBLOCK)) w3 = Returns r' w4 ->
  run (logged os)
    (Java_io_questdb_network_Net_configureNonBlocking fd;;
     Java_io_questdb_network_Net_configureNonBlocking fd) (w, [])
  = Returns (if r' <? 0 then r' else 0)
      (w4, [EvFcntl (to_int fd) F_GETFL 0 flags;
            EvFcntl (to_int fd) F_SETFL (Z.lor flags O_NONBLOCK) r;
            EvFcntl (to_int fd) F_GETFL 0 (Z.lor flags O_NONBLOCK);
            EvFcntl (to_int fd) F_SETFL (Z.lor flags O_NONBLOCK) r']).
Proof.
  intros Hnb Hflags Hr Hget Hset Hget' Hset'.
  assert (Hword : 0 <= Z.lor flags O_NONBLOCK) by (apply Z.lor_nonneg; lia).
  assert (Hsame : Z.lor (Z.lor flags O_NONBLOCK) O_NONBLOCK = Z.lor flags O_NONBLOCK)
    by (now rewrite <- Z.lor_assoc, Z.lor_diag).
  unfold Java_io_questdb_network_Net_configureNonBlocking. cbn.
  rewrite Hget. cbn. destruct (Z.ltb_spec flags 0); [lia |]. cbn.
  rewrite Hset. cbn. destruct (Z.ltb_spec r 0); [lia |]. cbn.
  rewrite Hget'. cbn. destruct (Z.ltb_spec (Z.lor flags O_NONBLOCK) 0); [lia |]. cbn.
  rewrite Hsame, Hset'. cbn. destruct (r' <? 0); reflexivity.
Qed.
End StatusFlags.

(** ** Options and binding, for every operating system *)

Section OptionsAndBinding.
Context {P : platform} {O : options_h} {W : Type} (os : libc_more W).

(** A body over [call] runs the same when taken as a body over both kinds of
    call. *)
Lemma run_more_lift {A : Type} (p : prog A) (w : W) :
  run_more os (lift p) w = run (base os) p w.
Proof.
  revert w. induction p as [a | X c k IH | k IH]; intros w; cbn.
  - reflexivity.
  - destruct (sys (base os) c w); [apply IH | reflexivity | reflexivity].
  - apply IH.
Qed.

(** X3. A getter returns the option's value when [getsockopt] returns 0 and -1
    in every other case, so -1 is returned both for a failed query and for an
    option whose value is -1. *)
Theorem get_int_sockopt_outcome (fd level opt rc value : Z) (w w1 : W) :
  sys_more os (Getsockopt fd level opt 0) w = Returns (rc, value) w1 ->
  exists r : Z,
    run_more os (get_int_sockopt fd level opt) w = Returns r w1 /\
    (rc = 0 -> r = value) /\
    (rc <> 0 -> r = -1) /\
    (r = -1 <-> rc <> 0 \/ value = -1) /\
    Java_io_questdb_network_Net_getSndBuf fd = get_int_sockopt (to_int fd) SOL_SOCKET SO_SNDBUF /\
    Java_io_questdb_network_Net_getRcvBuf fd = get_int_sockopt (to_int fd) SOL_SOCKET SO_RCVBUF /\
    Java_io_questdb_network_Net_getTcpNoDelay fd
    = get_int_sockopt (to_int fd) IPPROTO_TCP TCP_NODELAY.
Proof.
  intros Hsys. exists (if rc =? 0 then value else -1). split.
  - unfold get_int_sockopt. cbn. rewrite Hsys. cbn.
    destruct (rc =? 0); reflexivity.
  - destruct (Z.eqb_spec rc 0) as [Hrc | Hrc];
      repeat split; intros; first [lia | congruence | tauto | intuition congruence].
Qed.

(** X4. A setter followed by its getter.  Both name the same descriptor, level
    and option; the setter hands [setsockopt] the value as an [int] and
    returns what it returns, and the getter then returns what [getsockopt]
    reports, the value on a return code of 0 and -1 otherwise.  What comes
    back is the word of the operating system, which need not be the value that
    was set.  So it is for the helpers and for each pair built on them. *)
Theorem set_then_get_int_sockopt (fd level opt value rs rc got : Z) (w w1 w2 : W)
    (both := fun (set : prog Z) (get : prog_more Z) =>
       run_more os (s ← lift set; g ← get; Ret_more (s, g)) w)
    (outcome := Returns (rs, if rc =? 0 then got else -1) w2) :
  sys (base os) (Setsockopt fd level opt (opt_int value)) w = Returns rs w1 ->
  sys_more os (Getsockopt fd level opt 0) w1 = Returns (rc, got) w2 ->
  both (set_int_sockopt fd level opt value) (get_int_sockopt fd level opt) = outcome /\
  (forall jfd : Z,
     fd = to_int jfd -> level = SOL_SOCKET -> opt = SO_SNDBUF ->
     both (Java_io_questdb_network_Net_setSndBuf jfd value)
          (Java_io_questdb_network_Net_getSndBuf jfd) = outcome) /\
  (forall jfd : Z,
     fd = to_int jfd -> level = SOL_SOCKET -> opt = SO_RCVBUF ->
     both (Java_io_questdb_network_Net_setRcvBuf jfd value)
          (Java_io_questdb_network_Net_getRcvBuf jfd) = outcome) /\
  (forall (jfd : Z) (noDelay : bool),
     fd = to_int jfd -> level = IPPROTO_TCP -> opt = TCP_NODELAY ->
     value = Z.b2z noDelay ->
     both (Java_io_questdb_network_Net_setTcpNoDelay jfd noDelay)
          (Java_io_questdb_network_Net_getTcpNoDelay jfd) = outcome).
Proof.
  intros Hset Hget.
  assert (Hboth : both (set_int_sockopt fd level opt value) (get_int_sockopt fd level opt)
                  = outcome).
  { subst both outcome. unfold set_int_sockopt, get_int_sockopt. cbn.
    rewrite Hset. cbn. rewrite Hget. cbn. destruct (rc =? 0); reflexivity. }
  split; [exact Hboth |].
  repeat split; intros; subst; exact Hboth.
Qed.

(** X5. [bindTcp] and [bindUdp] hand [bind] the address [sockaddr] would build
    for the same arguments, in network byte order, and return true exactly
    when [bind] returns 0; any other return, positive ones included, gives
    false. *)
Theorem Net_bindTcp_outcome (fd address port rc : Z) (w w1 : W) :
  sys_more os (Bind (to_int fd) (built address port) sizeof_sockaddr_in) w = Returns rc w1 ->
  exists b : bool,
    run_more os (Java_io_questdb_network_Net_bindTcp fd address port) w = Returns b w1 /\
    run_more os (Java_io_questdb_network_Net_bindUdp fd address port) w = Returns b w1 /\
    (b = true <-> rc = 0) /\
    in_memory 4 (sin_addr (built address port)) = be_bytes 4 (to_uint32 address) /\
    in_memory 2 (sin_port (built address port)) = be_bytes 2 (to_uint16 port).
Proof.
  intros Hsys. exists (rc =? 0).
  assert (Hrun : run_more os (Java_io_questdb_network_Net_bindTcp fd address port) w
                 = Returns (rc =? 0) w1).
  { unfold Java_io_questdb_network_Net_bindTcp. cbn.
    unfold built in Hsys. now rewrite Hsys. }
  split; [exact Hrun |]. split; [exact Hrun |].
  split; [apply Z.eqb_eq |].
  split; [apply htonl_in_memory | apply htons_in_memory].
Qed.
End OptionsAndBinding.

(** ** Addresses through the layer and back *)

Section RoundTrips.
Context {P : platform} {W : Type} (os : libc W).

(** X6. When the peer [getpeername] reports is the address [sockaddr] builds
    for a host-order [jint] address and a port below 65536, [getPeerIP]
    returns that address, addresses from 128.0.0.0 up coming back as the same
    negative [jint], and [getPeerPort] returns that port. *)
Theorem peer_of_built_address (fd ip port : Z) (w w1 : W) :
  INT_MIN <= ip <= INT_MAX ->
  0 <= port < 65536 ->
  sys os (Getpeername (to_int fd)) w = Returns (0, built ip port) w1 ->
  run os (Java_io_questdb_network_Net_getPeerIP fd) w = Returns ip w1 /\
  run os (Java_io_questdb_network_Net_getPeerPort fd) w = Returns port w1.
Proof.
  intros Hip Hport Hsys.
  rewrite (run_Net_getPeerIP os fd 0 _ w w1 Hsys).
  rewrite (run_Net_getPeerPort os fd 0 _ w w1 Hsys).
  cbn [built sin_family sin_addr sin_port]. rewrite !Z.eqb_refl.
  rewrite ntohl_htonl, ntohs_htons.
  replace (to_uint32 (to_uint32 ip)) with (to_uint32 ip)
    by (unfold to_uint32, wrap_unsigned; now rewrite Z.mod_mod by lia).
  rewrite to_jint_of_uint32 by exact Hip.
  split; [reflexivity |].
  unfold to_uint16, wrap_unsigned. change (2 ^ 16) with 65536.
  rewrite Z.mod_mod by lia. rewrite Z.mod_small by lia. rewrite to_jint_id; [reflexivity |].
  unfold INT_MIN, INT_MAX. lia.
Qed.
End RoundTrips.

(** ** What the liveness probe costs *)

Section ProbeCost.
Context {P : platform} {N : net_h} {W : Type} (os : libc W).

End ProbeCost.

(** ** Creation and failures on the reference model *)

Section PosixCreation.
Context {P : platform} {N : net_h}.

Lemma posix_socket_cases (domain type protocol : Z) (w : world) :
  (exists w1 : world,
     posix_socket domain type protocol w = Returns (-1) w1 /\ fds w1 = fds w) \/
  (exists w1 : world,
     posix_socket domain type protocol w = Returns (lowest_free 0 (fds w)) w1 /\
     fds w1 = <[lowest_free 0 (fds w) := new_sock]> (fds w)).
Proof.
  unfold posix_socket, fail.
  destruct (pop_fault w) as [e w0] eqn:Hpop. apply pop_fault_fds in Hpop.
  destruct (negb (e =? 0)).
  - left. eexists. split; [reflexivity | exact Hpop].
  - right. eexists. rewrite Hpop. split; reflexivity.
Qed.

Lemma posix_fcntl_setfl (fd arg : Z) (s : sock) (m : gmap Z sock) (w : world) :
  fds w = <[fd := s]> m ->
  (exists w' : world,
     posix_fcntl fd F_SETFL arg w = Returns (-1) w' /\ fds w' = <[fd := s]> m) \/
  (exists w' : world,
     posix_fcntl fd F_SETFL arg w = Returns 0 w' /\
     fds w' = <[fd := set_nonblock (negb (Z.land arg O_NONBLOCK =? 0)) s]> m).
Proof.
  intros Hw. unfold posix_fcntl, fail.
  destruct (pop_fault w) as [e w0] eqn:Hpop. apply pop_fault_fds in Hpop.
  rewrite Hpop, Hw, lookup_insert_eq.
  destruct (negb (e =? 0)).
  - left. eexists. split; [reflexivity |]. cbn. now rewrite Hpop.
  - right. rewrite Z.eqb_refl. eexists. split; [reflexivity |].
    cbn. now rewrite insert_insert_eq.
Qed.

Lemma posix_setsockopt_reuseaddr (fd : Z) (s : sock) (m : gmap Z sock) (w : world) :
  fds w = <[fd := s]> m ->
  (exists w' : world,
     posix_setsockopt fd SOL_SOCKET SO_REUSEADDR (opt_int 1) w = Returns (-1) w' /\
     fds w' = <[fd := s]> m) \/
  (exists w' : world,
     posix_setsockopt fd SOL_SOCKET SO_REUSEADDR (opt_int 1) w = Returns 0 w' /\
     fds w' = <[fd := set_reuseaddr true s]> m).
Proof.
  intros Hw. unfold posix_setsockopt, fail.
  destruct (pop_fault w) as [e w0] eqn:Hpop. apply pop_fault_fds in Hpop.
  rewrite Hpop, Hw, lookup_insert_eq.
  destruct (negb (e =? 0)).
  - left. eexists. split; [reflexivity |]. cbn. now rewrite Hpop.
  - right. unfold apply_option. rewrite !Z.eqb_refl. cbn.
    eexists. split; [reflexivity |]. cbn. now rewrite insert_insert_eq.
Qed.

Local Ltac sign :=
  match goal with
  | H : 0 < ?x |- context [0 <? ?x] => rewrite (proj2 (Z.ltb_lt 0 x) H)
  | H : ?x <= 0 |- context [0 <? ?x] => rewrite (proj2 (Z.ltb_ge 0 x) H)
  end.

(** X8. On the reference model every creation returns.  It returns -1 and
    leaves the descriptor table as it was, or it returns the lowest free
    descriptor, newly entered in the table: configured as requested when the
    descriptor is positive, and left as [socket] made it, blocking and without
    address reuse, when the descriptor is 0. *)
Theorem creation_outcome (tcp : option bool) (w : world) :
  O_NONBLOCK <> 0 ->
  exists (r : Z) (w' : world),
    run posix (factory tcp) w = Returns r w' /\
    (r = -1 /\ fds w' = fds w \/
     0 <= r /\ r = lowest_free 0 (fds w) /\ fds w !! r = None /\
     fds w' = <[r := if 0 <? r then requested tcp else new_sock]> (fds w)).
Proof.
  intros Hnb.
  assert (Hflag : negb (Z.land O_NONBLOCK O_NONBLOCK =? 0) = true).
  { rewrite Z.land_diag. apply negb_true_iff. now apply Z.eqb_neq. }
  pose proof (lowest_free_ge 0 (fds w)) as Hge.
  pose proof (lowest_free_fresh 0 (fds w)) as Hfresh.
  set (fd := lowest_free 0 (fds w)) in *.
  assert (Hsock : forall type : Z,
    (exists w1, posix_socket AF_INET type 0 w = Returns (-1) w1 /\ fds w1 = fds w) \/
    (exists w1, posix_socket AF_INET type 0 w = Returns fd w1 /\
                fds w1 = <[fd := new_sock]> (fds w)))
    by (intros type; apply posix_socket_cases).
  unfold factory, Java_io_questdb_network_Net_socketTcp0,
    Java_io_questdb_network_Net_socketUdp0.
  destruct tcp as [[|] |]; cbn [negb andb requested].
  - (* blocking TCP: the socket call only *)
    destruct (Hsock SOCK_STREAM) as [(w1 & Hs & Hfds) | (w1 & Hs & Hfds)];
      cbn; rewrite Hs; cbn; rewrite ?andb_false_r; cbn;
      do 2 eexists; (split; [reflexivity |]).
    + left. now split.
    + right. split; [lia |]. split; [reflexivity |]. split; [exact Hfresh |].
      rewrite Hfds. now destruct (0 <? fd).
  - (* non-blocking TCP *)
    destruct (Hsock SOCK_STREAM) as [(w1 & Hs & Hfds) | (w1 & Hs & Hfds)];
      cbn; rewrite Hs; cbn.
    + do 2 eexists. split; [reflexivity |]. left. now split.
    + rewrite andb_true_r. destruct (Z.ltb_spec 0 fd) as [Hpos | Hzero].
      2: { cbn. do 2 eexists. split; [reflexivity |]. right.
           split; [lia |]. split; [reflexivity |]. split; [exact Hfresh |]. sign. exact Hfds. }
      destruct (posix_fcntl_setfl fd O_NONBLOCK _ _ _ Hfds)
        as [(w2 & Hf & Hfds2) | (w2 & Hf & Hfds2)]; cbn; rewrite Hf; cbn.
      * destruct (posix_close_new fd _ _ w2 Hfresh Hfds2) as (w3 & Hc & Hfds3).
        rewrite Hc. cbn. do 2 eexists. split; [reflexivity |]. left. now split.
      * rewrite Hflag in Hfds2.
        destruct (posix_setsockopt_reuseaddr fd _ _ _ Hfds2)
          as [(w3 & Hso & Hfds3) | (w3 & Hso & Hfds3)]; cbn; rewrite Hso; cbn.
        -- destruct (posix_close_new fd _ _ w3 Hfresh Hfds3) as (w4 & Hc & Hfds4).
           rewrite Hc. cbn. do 2 eexists. split; [reflexivity |]. left. now split.
        -- do 2 eexists. split; [reflexivity |]. right.
           split; [lia |]. split; [reflexivity |]. split; [exact Hfresh |]. sign. exact Hfds3.
  - (* UDP *)
    destruct (Hsock SOCK_DGRAM) as [(w1 & Hs & Hfds) | (w1 & Hs & Hfds)];
      cbn; rewrite Hs; cbn.
    + do 2 eexists. split; [reflexivity |]. left. now split.
    + destruct (Z.ltb_spec 0 fd) as [Hpos | Hzero].
      2: { cbn. do 2 eexists. split; [reflexivity |]. right.
           split; [lia |]. split; [reflexivity |]. split; [exact Hfresh |]. sign. exact Hfds. }
      destruct (posix_fcntl_setfl fd O_NONBLOCK _ _ _ Hfds)
        as [(w2 & Hf & Hfds2) | (w2 & Hf & Hfds2)]; cbn; rewrite Hf; cbn.
      * destruct (posix_close_new fd _ _ w2 Hfresh Hfds2) as (w3 & Hc & Hfds3).
        rewrite Hc. cbn. do 2 eexists. split; [reflexivity |]. left. now split.
      * rewrite Hflag in Hfds2.
        do 2 eexists. split; [reflexivity |]. right.
        split; [lia |]. split; [reflexivity |]. split; [exact Hfresh |]. sign. exact Hfds2.
Qed.
End PosixCreation.

(** ** Handles, probes and allocation on the reference model *)

Section PosixEdges.
Context {P : platform} {N : net_h}.

(** X11. On a descriptor that is not open every operation reports failure:
    [recv], [peek] and [send] return the Disconnected sentinel, [isDead]
    returns true, [getPeerIP] and [getPeerPort] return -1, and the
    descriptor table stays as it was. *)
Theorem closed_handle_fails (w : world) (fd len : Z) (ptr : list byte) :
  fds w !! to_int fd = None ->
  EBADF <> EWOULDBLOCK ->
  run posix (Java_io_questdb_network_Net_recv fd len) w
  = Returns (EOTHERDISCONNECT, []) (with_errno EBADF w) /\
  run posix (Java_io_questdb_network_Net_peek fd len) w
  = Returns (EOTHERDISCONNECT, []) (with_errno EBADF w) /\
  run posix (Java_io_questdb_network_Net_send fd ptr len) w
  = Returns EOTHERDISCONNECT (with_errno EBADF w) /\
  run posix (Java_io_questdb_network_Net_isDead fd) w = Returns true (with_errno EBADF w) /\
  run posix (Java_io_questdb_network_Net_getPeerIP fd) w = Returns (-1) (with_errno EBADF w) /\
  run posix (Java_io_questdb_network_Net_getPeerPort fd) w = Returns (-1) (with_errno EBADF w) /\
  fds (with_errno EBADF w) = fds w.
Proof.
  intros Hfd Hne.
  assert (Hcode : (EBADF =? EWOULDBLOCK) = false) by now apply Z.eqb_neq.
  repeat split.
  - rewrite (run_Net_recv posix fd len (-1) [] w (with_errno EBADF w)).
    + unfold read_outcome. cbn. now rewrite Hcode.
    + cbn. unfold posix_recv. now rewrite Hfd.
  - rewrite (run_Net_peek posix fd len (-1) [] w (with_errno EBADF w)).
    + unfold read_outcome. cbn. now rewrite Hcode.
    + cbn. unfold posix_recv. now rewrite Hfd.
  - rewrite (run_Net_send posix fd ptr len (-1) w (with_errno EBADF w)).
    + cbn. now rewrite Hcode.
    + cbn. unfold posix_send. now rewrite Hfd.
  - unfold Java_io_questdb_network_Net_isDead. cbn. unfold posix_recv. now rewrite Hfd.
  - rewrite (run_Net_getPeerIP posix fd (-1) null_sockaddr w (with_errno EBADF w));
      [reflexivity |]. cbn. unfold posix_getpeername. now rewrite Hfd.
  - rewrite (run_Net_getPeerPort posix fd (-1) null_sockaddr w (with_errno EBADF w));
      [reflexivity |]. cbn. unfold posix_getpeername. now rewrite Hfd.
Qed.

(** X12. [sockaddr] does not test what [calloc] returns: when the allocation
    fails, the first assignment goes through the null pointer, which has no
    defined behaviour. *)
Theorem Net_sockaddr_failed_allocation (w : world) (address port : Z) :
  (pop_fault w).1 <> 0 ->
  heap w !! 0 = None ->
  run posix (Java_io_questdb_network_Net_sockaddr address port) w = Faults.
Proof.
  intros Hfail Hnull. unfold Java_io_questdb_network_Net_sockaddr. cbn.
  unfold posix_calloc, fail. pose proof (heap_pop_fault w) as Hheap.
  destruct (pop_fault w) as [e w0]. cbn in Hfail, Hheap.
  destruct (Z.eqb_spec e 0) as [| _]; [contradiction |]. cbn.
  unfold posix_store. cbn. now rewrite Hheap, Hnull.
Qed.

End PosixEdges.

(** * Concrete runs on Linux *)

(** On a non-blocking socket with nothing pending the read fails with
    [EWOULDBLOCK], and [recv] returns the Retry sentinel. *)
Lemma Net_recv_outcome_witness :
  sys (@posix linux) (Recv 5 16 0) idle = Returns (-1, []) (with_errno 11 idle) /\
  run (@posix linux) (@Java_io_questdb_network_Net_recv linux net_h_sample 5 16) idle
  = Returns (@ERETRY net_h_sample, []) (with_errno 11 idle).
Proof.
  assert (Hsys : sys (@posix linux) (Recv (to_int 5) (to_size_t 16) 0) idle
                 = Returns (-1, []) (with_errno 11 idle)) by (vm_compute; reflexivity).
  split; [exact Hsys |].
  destruct (@Net_recv_outcome linux net_h_sample world (@posix linux) 5 16 (-1) []
              idle (with_errno 11 idle)) as (r & Hrun & _ & _ & Hretry & _).
  - vm_compute. discriminate.
  - exact Hsys.
  - destruct Hretry as [Hr _]; [lia | reflexivity |].
    rewrite Hr in Hrun. exact Hrun.
Defined.

(** A send of "PING" on a connected socket with room returns the count 4. *)
Lemma Net_send_outcome_witness :
  sys (@posix linux) (Send 5 ping 4 0) idle = Returns 4 (one_socket 5 (push_tx ping (connected true [] false))) /\
  run (@posix linux) (@Java_io_questdb_network_Net_send linux net_h_sample 5 ping 4) idle
  = Returns 4 (one_socket 5 (push_tx ping (connected true [] false))).
Proof.
  assert (Hsys : sys (@posix linux) (Send (to_int 5) ping (to_size_t 4) 0) idle
                 = Returns 4 (one_socket 5 (push_tx ping (connected true [] false))))
    by (vm_compute; reflexivity).
  split; [exact Hsys |].
  destruct (@Net_send_outcome linux net_h_sample world (@posix linux) 5 ping 4 4
              idle (one_socket 5 (push_tx ping (connected true [] false))))
    as (r & Hrun & Hok & _).
  - vm_compute. discriminate.
  - exact Hsys.
  - destruct Hok as [_ Hfit]; [lia |].
    rewrite Hfit in Hrun by (unfold INT_MAX; lia). exact Hrun.
Defined.

(** C3 fails as stated: a send of length 0 on a connected socket returns 0,
    whatever the two sentinels are.  The call succeeded, so this is neither a
    would-block nor a failure, and 0 is not a positive count. *)
Lemma Net_send_zero_counterexample :
  sys (@posix linux) (Send 5 [] 0 0) idle = Returns 0 idle /\
  (forall N : net_h,
     run (@posix linux) (@Java_io_questdb_network_Net_send linux N 5 [] 0) idle
     = Returns 0 idle) /\
  ~ 0 < 0.
Proof.
  split; [vm_compute; reflexivity |]. split; [| lia].
  intros N. vm_compute. reflexivity.
Qed.

(** With "PING" pending the probe consumes the "P" and reports the connection
    alive. *)
Lemma Net_isDead_probe_witness :
  sys (@posix linux) (Recv 5 1 0) pinged
  = Returns (1, [x50]) (one_socket 5 (connected true [x49; x4e; x47] false)) /\
  run (@posix linux) (@Java_io_questdb_network_Net_isDead 5) pinged
  = Returns false (one_socket 5 (connected true [x49; x4e; x47] false)).
Proof.
  assert (Hsys : sys (@posix linux) (Recv (to_int 5) 1 0) pinged
                 = Returns (1, [x50]) (one_socket 5 (connected true [x49; x4e; x47] false)))
    by (vm_compute; reflexivity).
  split; [exact Hsys |].
  destruct (@Net_isDead_probe world (@posix linux) 5 1 [x50] pinged _ Hsys)
    as (b & Hrun & _ & Hfalse).
  rewrite (proj2 Hfalse) in Hrun by lia. exact Hrun.
Defined.

(** C2 fails as stated: descriptor 5 is connected and its peer has not closed,
    yet [isDead] returns true, because the non-blocking probe finds nothing to
    read and fails with [EWOULDBLOCK]. *)
Lemma Net_isDead_live_peer_counterexample :
  fds idle !! 5 = Some (connected true [] false) /\
  peer_closed (connected true [] false) = false /\
  run (@posix linux) (@Java_io_questdb_network_Net_isDead 5) idle
  = Returns true (with_errno (@EWOULDBLOCK linux) idle).
Proof. repeat split; vm_compute; reflexivity. Qed.

(** With "PING" pending, a peek of 4 bytes returns 4 and "PING", and so does
    the [recv] after it. *)
Lemma Net_peek_then_recv_witness :
  @MSG_PEEK linux <> 0 /\
  exists w' : world,
    run (@posix linux) (@Java_io_questdb_network_Net_peek linux net_h_sample 5 4) pinged
    = Returns (4, ping) w' /\
    fds w' = fds pinged /\
    exists w'' : world,
      run (@posix linux) (@Java_io_questdb_network_Net_recv linux net_h_sample 5 4) w'
      = Returns (4, ping) w''.
Proof.
  assert (Hpeek : @MSG_PEEK linux <> 0) by (vm_compute; discriminate).
  split; [exact Hpeek |].
  exact (@Net_peek_then_recv linux net_h_sample pinged 5 4 Hpeek).
Defined.

(** The peer 127.0.0.1:9009 is reported as 2130706433 and 9009. *)
Lemma Net_getPeer_outcome_witness :
  sys (@posix linux) (Getpeername 5) idle = Returns (0, loopback_peer) idle /\
  run (@posix linux) (@Java_io_questdb_network_Net_getPeerIP linux 5) idle
  = Returns 2130706433 idle /\
  run (@posix linux) (@Java_io_questdb_network_Net_getPeerPort linux 5) idle
  = Returns 9009 idle.
Proof.
  assert (Hsys : sys (@posix linux) (Getpeername (to_int 5)) idle
                 = Returns (0, loopback_peer) idle) by (vm_compute; reflexivity).
  split; [exact Hsys |].
  destruct (@Net_getPeer_outcome linux world (@posix linux) 5 0 loopback_peer idle idle Hsys)
    as (ip & port & Hip & Hport & _ & _ & Hv4 & _).
  destruct Hv4 as (Hipv & _ & Hportv); [reflexivity | reflexivity |].
  rewrite Hipv in Hip. rewrite Hportv in Hport. split; [exact Hip | exact Hport].
Defined.

(** C6 fails as stated: the lookup succeeds and the family is [AF_INET], yet
    [getPeerIP] returns -2 for the peer 255.255.255.254 and -1 for the peer
    255.255.255.255. *)
Lemma Net_getPeerIP_sentinel_counterexample :
  sys (@posix linux) (Getpeername 5) (to_high_peer 254)
  = Returns (0, high_peer 254) (to_high_peer 254) /\
  sin_family (high_peer 254) = @AF_INET linux /\
  run (@posix linux) (@Java_io_questdb_network_Net_getPeerIP linux 5) (to_high_peer 254)
  = Returns (-2) (to_high_peer 254) /\
  run (@posix linux) (@Java_io_questdb_network_Net_getPeerIP linux 5) (to_high_peer 255)
  = Returns (-1) (to_high_peer 255).
Proof. repeat split; vm_compute; reflexivity. Qed.

(** 127.0.0.1:9009 is stored as the bytes 127 0 0 1 and 35 49. *)
Lemma Net_sockaddr_builds_witness :
  (pop_fault idle).1 = 0 /\
  exists (p : Z) (w' : world) (a : sockaddr_in),
    run (@posix linux) (@Java_io_questdb_network_Net_sockaddr linux 2130706433 9009) idle
    = Returns p w' /\
    p <> 0 /\
    heap w' = <[p := a]> (heap idle) /\
    sin_family a = 2 /\
    @in_memory linux 4 (sin_addr a) = [127; 0; 0; 1] /\
    @in_memory linux 2 (sin_port a) = [35; 49].
Proof.
  split; [reflexivity |].
  destruct (@Net_sockaddr_builds linux idle 2130706433 9009 eq_refl)
    as (p & w' & a & Hrun & Hp & _ & Hheap & _ & Hfam & _ & _ & Haddr & Hport & _).
  exists p, w', a.
  split; [exact Hrun |]. split; [exact Hp |]. split; [exact Hheap |].
  split; [exact Hfam |]. split; [exact Haddr | exact Hport].
Defined.

(** Freeing block 1 empties the heap; freeing null afterwards changes
    nothing. *)
Lemma Net_freeSockAddr_releases_witness :
  heap holding !! 1 = Some loopback_peer /\
  1 <> 0 /\
  exists w' : world,
    run (@posix linux) (Java_io_questdb_network_Net_freeSockAddr 1) holding = Returns tt w' /\
    heap w' = ∅ /\
    run (@posix linux) (Java_io_questdb_network_Net_freeSockAddr 0) w' = Returns tt w'.
Proof.
  assert (Hlive : heap holding !! 1 = Some loopback_peer) by (vm_compute; reflexivity).
  assert (Hp : 1 <> 0) by lia.
  destruct (@Net_freeSockAddr_releases linux world (@posix linux) holding holding 1
              loopback_peer Hlive Hp) as (w' & Hrun & Hheap & _ & _ & Hnull & _).
  split; [exact Hlive |]. split; [exact Hp |]. exists w'.
  split; [exact Hrun |]. split; [| exact Hnull].
  rewrite Hheap. vm_compute. reflexivity.
Defined.

(** When the operating system refuses a setup step on the new descriptor 1,
    the creation closes it and returns -1, and the descriptor table is what
    it was: [setsockopt] refused to [socketTcp0(false)], and [fcntl] refused
    to [socketUdp0]. *)
Lemma socket_setup_rollback_witness :
  run (logged (@posix linux)) (@create linux false) (refusing, [])
  = Returns (-1) (refused, refusal) /\
  run (logged (@posix linux)) (@create linux true) (denying, [])
  = Returns (-1) (denied, denial) /\
  fds refused = fds refusing /\
  fds denied = fds denying.
Proof.
  split; [| split; [| split; reflexivity]].
  - edestruct (@socket_setup_rollback linux world (@posix linux) false 1 refusing)
      as (r & w' & tr & Hrun & _ & Hreuse & _);
      [exact (@posix_creation_calls_return linux) | vm_compute; reflexivity | lia |].
    edestruct (Hreuse 0 (-1)) as (-> & c & Hclose & ->);
      [reflexivity | vm_compute; reflexivity | lia | vm_compute; reflexivity | lia |].
    vm_compute in Hclose. injection Hclose as <- <-. exact Hrun.
  - edestruct (@socket_setup_rollback linux world (@posix linux) true 1 denying)
      as (r & w' & tr & Hrun & Hflags & _);
      [exact (@posix_creation_calls_return linux) | vm_compute; reflexivity | lia |].
    edestruct (Hflags (-1)) as (-> & c & Hclose & ->);
      [vm_compute; reflexivity | lia |].
    vm_compute in Hclose. injection Hclose as <- <-. exact Hrun.
Defined.

(** A join to 10.0.0.1, which is no multicast group, fails and returns false;
    the descriptor is untouched, and a join to 224.0.0.1 on it then
    succeeds. *)
Lemma Net_join_outcome_witness :
  sys (@posix linux) (@membership_request linux 5 0 167772161) idle
  = Returns (-1) (with_errno 22 idle) /\
  run (@posix linux) (@Java_io_questdb_network_Net_join linux 5 0 167772161) idle
  = Returns false (with_errno 22 idle) /\
  fds (with_errno 22 idle) = fds idle /\
  exists w' : world,
    run (@posix linux) (@Java_io_questdb_network_Net_join linux 5 0 3758096385)
      (with_errno 22 idle) = Returns true w'.
Proof.
  assert (Hsys : sys (@posix linux) (@membership_request linux 5 0 167772161) idle
                 = Returns (-1) (with_errno 22 idle)) by (vm_compute; reflexivity).
  destruct (@Net_join_outcome linux world (@posix linux) 5 0 167772161 (-1) idle
              (with_errno 22 idle) [] Hsys) as (r & _ & Hrun & _ & Hfalse); [now right |].
  rewrite (proj2 Hfalse) in Hrun by reflexivity.
  split; [exact Hsys |]. split; [exact Hrun |]. split; [reflexivity |].
  eexists. vm_compute. reflexivity.
Defined.

(** A time-to-live of 257 reaches the kernel as the byte 1, as 1 itself
    does. *)
Lemma Net_setMulticastTtl_truncates_witness :
  sys (@posix linux) (Setsockopt 5 0 33 (opt_u_char 1)) idle
  = Returns 0 (one_socket 5 (set_multicast_ttl 1 (connected true [] false))) /\
  run (logged (@posix linux)) (@Java_io_questdb_network_Net_setMulticastTtl linux 5 257) (idle, [])
  = Returns 0 (one_socket 5 (set_multicast_ttl 1 (connected true [] false)),
               [EvSetsockopt 5 0 33 (opt_u_char 1) 0]) /\
  run (logged (@posix linux)) (@Java_io_questdb_network_Net_setMulticastTtl linux 5 1) (idle, [])
  = run (logged (@posix linux)) (@Java_io_questdb_network_Net_setMulticastTtl linux 5 257) (idle, []).
Proof.
  assert (Hsys : sys (@posix linux)
                   (Setsockopt (to_int 5) (@IPPROTO_IP linux) (@IP_MULTICAST_TTL linux)
                      (opt_u_char (257 mod 256))) idle
                 = Returns 0 (one_socket 5 (set_multicast_ttl 1 (connected true [] false))))
    by (vm_compute; reflexivity).
  destruct (@Net_setMulticastTtl_truncates linux world (@posix linux) 5 257 0 idle _ [] Hsys)
    as (_ & Hrun & Hsame).
  split; [exact Hsys |]. split; [exact Hrun |].
  apply Hsame. reflexivity.
Defined.

(** * Concrete runs of the further properties *)

(** A descriptor opened read-write (flags 2) gets the flags 2050: read-write
    and non-blocking. *)
Lemma Net_configureNonBlocking_outcome_witness :
  sys flag_word (Fcntl 5 3 0) 2 = Returns 2 2 /\
  run (logged flag_word)
    (@Java_io_questdb_network_Net_configureNonBlocking linux linux_options 5) (2, [])
  = Returns 0 (2050, [EvFcntl 5 3 0 2; EvFcntl 5 4 2050 0]).
Proof.
  assert (Hget : sys flag_word (Fcntl (to_int 5) (@F_GETFL linux_options) 0) 2 = Returns 2 2)
    by reflexivity.
  split; [exact Hget |].
  destruct (@Net_configureNonBlocking_outcome linux linux_options Z flag_word 5 2 2 2 [] Hget)
    as [_ Hok].
  apply (Hok ltac:(lia) 0 2050). reflexivity.
Defined.

(** Doing it twice leaves the flags at 2050. *)
Lemma Net_configureNonBlocking_twice_witness :
  run (logged flag_word)
    (@Java_io_questdb_network_Net_configureNonBlocking linux linux_options 5;;
     @Java_io_questdb_network_Net_configureNonBlocking linux linux_options 5) (2, [])
  = Returns 0 (2050, [EvFcntl 5 3 0 2; EvFcntl 5 4 2050 0;
                      EvFcntl 5 3 0 2050; EvFcntl 5 4 2050 0]).
Proof.
  apply (@Net_configureNonBlocking_twice linux linux_options Z flag_word 5 2 0 0
           2 2 2050 2050 2050); first [reflexivity | vm_compute; discriminate | lia].
Defined.

(** A send buffer of 4096 bytes is reported as 4096. *)
Lemma get_int_sockopt_outcome_witness :
  sys_more option_table (Getsockopt 5 1 7 0) {[ (5, 1, 7) := 4096 ]}
  = Returns (0, 4096) {[ (5, 1, 7) := 4096 ]} /\
  run_more option_table (@Java_io_questdb_network_Net_getSndBuf linux linux_options 5)
    {[ (5, 1, 7) := 4096 ]}
  = Returns 4096 {[ (5, 1, 7) := 4096 ]}.
Proof.
  assert (Hsys : sys_more option_table (Getsockopt 5 1 7 0) {[ (5, 1, 7) := 4096 ]}
                 = Returns (0, 4096) {[ (5, 1, 7) := 4096 ]}) by (vm_compute; reflexivity).
  split; [exact Hsys |].
  destruct (@get_int_sockopt_outcome linux linux_options _ option_table 5 1 7 0 4096 _ _ Hsys)
    as (r & Hrun & Hvalue & _).
  rewrite (Hvalue eq_refl) in Hrun. exact Hrun.
Defined.

(** A send buffer set to 4096 bytes is reported as 8192 where the operating
    system doubles it; no-delay set to true is reported as 1. *)
Lemma set_then_get_int_sockopt_witness :
  run_more doubling_table
    (s ← lift (@Java_io_questdb_network_Net_setSndBuf linux linux_options 5 4096);
     g ← @Java_io_questdb_network_Net_getSndBuf linux linux_options 5;
     Ret_more (s, g)) ∅
  = Returns (0, 8192) {[ (5, 1, 7) := 8192 ]} /\
  run_more doubling_table
    (s ← lift (@Java_io_questdb_network_Net_setTcpNoDelay linux_options 5 true);
     g ← @Java_io_questdb_network_Net_getTcpNoDelay linux_options 5;
     Ret_more (s, g)) ∅
  = Returns (0, 1) {[ (5, 6, 1) := 1 ]}.
Proof.
  split.
  - refine (proj1 (proj2 (@set_then_get_int_sockopt linux linux_options _ doubling_table
                            5 1 7 4096 0 0 8192 ∅ {[ (5, 1, 7) := 8192 ]}
                            {[ (5, 1, 7) := 8192 ]} _ _)) 5 _ _ _);
      vm_compute; reflexivity.
  - refine (proj2 (proj2 (proj2 (@set_then_get_int_sockopt linux linux_options _ doubling_table
                            5 6 1 1 0 0 1 ∅ {[ (5, 6, 1) := 1 ]}
                            {[ (5, 6, 1) := 1 ]} _ _))) 5 true _ _ _ _);
      vm_compute; reflexivity.
Defined.


(** Binding descriptor 5 to 127.0.0.1:9009 succeeds. *)
Lemma Net_bindTcp_outcome_witness :
  sys_more option_table (Bind 5 loopback_peer 16) ∅ = Returns 0 ∅ /\
  run_more option_table (@Java_io_questdb_network_Net_bindTcp linux 5 2130706433 9009) ∅
  = Returns true ∅ /\
  run_more option_table (@Java_io_questdb_network_Net_bindUdp linux 5 2130706433 9009) ∅
  = Returns true ∅.
Proof.
  assert (Hsys : sys_more option_table
                   (Bind (to_int 5) (@built linux 2130706433 9009) sizeof_sockaddr_in) ∅
                 = Returns 0 ∅) by reflexivity.
  split; [exact Hsys |].
  destruct (@Net_bindTcp_outcome linux _ option_table 5 2130706433 9009 0 ∅ ∅ Hsys)
    as (b & Htcp & Hudp & Htrue & _).
  rewrite (proj2 Htrue eq_refl) in Htcp, Hudp. split; [exact Htcp | exact Hudp].
Defined.

(** The peer 192.168.0.1:9009 is reported as -1062731775 and 9009. *)
Lemma peer_of_built_address_witness :
  sys (@posix linux) (Getpeername 5) lan_peer
  = Returns (0, @built linux (-1062731775) 9009) lan_peer /\
  run (@posix linux) (@Java_io_questdb_network_Net_getPeerIP linux 5) lan_peer
  = Returns (-1062731775) lan_peer /\
  run (@posix linux) (@Java_io_questdb_network_Net_getPeerPort linux 5) lan_peer
  = Returns 9009 lan_peer.
Proof.
  assert (Hsys : sys (@posix linux) (Getpeername (to_int 5)) lan_peer
                 = Returns (0, @built linux (-1062731775) 9009) lan_peer)
    by (vm_compute; reflexivity).
  split; [exact Hsys |].
  apply (@peer_of_built_address linux world (@posix linux) 5 (-1062731775) 9009
           lan_peer lan_peer); [unfold INT_MIN, INT_MAX; lia | lia | exact Hsys].
Defined.

(** In a process with no descriptor open, [socket] hands out descriptor 0 and
    the creation stops there. *)
Lemma create_descriptor_zero_witness :
  sys (@posix linux) (Socket 2 1 0) bare = Returns 0 (with_fds {[ 0 := new_sock ]} bare) /\
  run (logged (@posix linux)) (@create linux false) (bare, [])
  = Returns 0 (with_fds {[ 0 := new_sock ]} bare, [EvSocket 2 1 0 0]).
Proof.
  assert (Hsys : sys (@posix linux)
                   (Socket (@AF_INET linux)
                      (if false then @SOCK_DGRAM linux else @SOCK_STREAM linux) 0) bare
                 = Returns 0 (with_fds {[ 0 := new_sock ]} bare)) by (vm_compute; reflexivity).
  split; [exact Hsys |].
  exact (@create_descriptor_zero linux world (@posix linux) false bare _ Hsys).
Defined.

(** A non-blocking TCP creation beside descriptor 5. *)
Lemma creation_outcome_witness :
  @O_NONBLOCK linux <> 0 /\
  exists (r : Z) (w' : world),
    run (@posix linux) (@factory linux (Some false)) idle = Returns r w' /\
    (r = -1 /\ fds w' = fds idle \/
     0 <= r /\ r = lowest_free 0 (fds idle) /\ fds idle !! r = None /\
     fds w' = <[r := if 0 <? r then requested (Some false) else new_sock]> (fds idle)).
Proof.
  assert (Hnb : @O_NONBLOCK linux <> 0) by (vm_compute; discriminate).
  split; [exact Hnb |].
  exact (@creation_outcome linux (Some false) idle Hnb).
Defined.

(** Building 127.0.0.1:9009 and freeing it. *)
Lemma build_then_free_witness :
  (pop_fault idle).1 = 0 /\
  exists (p : Z) (w1 w2 : world),
    run (@posix linux) (@Java_io_questdb_network_Net_sockaddr linux 2130706433 9009) idle
    = Returns p w1 /\
    run (@posix linux) (Java_io_questdb_network_Net_freeSockAddr p) w1 = Returns tt w2 /\
    heap w2 = heap idle.
Proof.
  split; [reflexivity |].
  exact (@build_then_free linux idle 2130706433 9009 eq_refl).
Defined.



(** Descriptor 5 is not open in a process with no descriptor. *)
Lemma closed_handle_fails_witness :
  fds bare !! 5 = None /\
  run (@posix linux) (@Java_io_questdb_network_Net_recv linux net_h_sample 5 16) bare
  = Returns (-2, []) (with_errno 9 bare) /\
  run (@posix linux) (Java_io_questdb_network_Net_isDead 5) bare
  = Returns true (with_errno 9 bare).
Proof.
  assert (Hfd : fds bare !! to_int 5 = None) by (vm_compute; reflexivity).
  split; [exact Hfd |].
  destruct (@closed_handle_fails linux net_h_sample bare 5 16 [] Hfd)
    as (Hrecv & _ & _ & Hdead & _); [vm_compute; discriminate |].
  split; [exact Hrecv | exact Hdead].
Defined.

(** With no memory left, [sockaddr] goes through the null pointer. *)
Lemma Net_sockaddr_failed_allocation_witness :
  (pop_fault exhausted).1 = 12 /\
  run (@posix linux) (@Java_io_questdb_network_Net_sockaddr linux 2130706433 9009) exhausted
  = Faults.
Proof.
  split; [reflexivity |].
  apply (@Net_sockaddr_failed_allocation linux exhausted 2130706433 9009);
    [vm_compute; discriminate | vm_compute; reflexivity].
Defined.



(** Freeing the block at 1 twice. *)
Lemma free_twice_faults_witness :
  heap holding !! 1 = Some loopback_peer /\
  run (@posix linux)
    (x ← Java_io_questdb_network_Net_freeSockAddr 1;
     Java_io_questdb_network_Net_freeSockAddr 1) holding = Faults.
Proof.
  assert (Hlive : heap holding !! 1 = Some loopback_peer) by (vm_compute; reflexivity).
  split; [exact Hlive |].
  apply (@free_twice_faults linux holding 1 loopback_peer Hlive). lia.
Defined.


(** The peer of descriptor 5 has closed: Disconnected. *)
Lemma Net_recv_closed_disconnected_witness :
  run (@posix linux) (@Java_io_questdb_network_Net_recv linux net_h_sample 5 16) hung_up
  = Returns (-2, []) hung_up.
Proof.
  apply (@Net_recv_closed_disconnected linux net_h_sample hung_up 5 16 (connected true [] true));
    vm_compute; reflexivity.
Defined.

(** Joining 10.0.0.1, which is no multicast group, fails and changes no
    descriptor. *)
Lemma Net_join_failure_keeps_sockets_witness :
  exists w' : world,
    run (@posix linux) (@Java_io_questdb_network_Net_join linux 5 0 167772161) idle
    = Returns false w' /\
    fds w' = fds idle /\ heap w' = heap idle.
Proof.
  assert (Hrun : { w' : world |
            run (@posix linux) (@Java_io_questdb_network_Net_join linux 5 0 167772161) idle
            = Returns false w' }) by (eexists; vm_compute; reflexivity).
  destruct Hrun as [w' Hrun]. exists w'. split; [exact Hrun |].
  exact (@Net_join_failure_keeps_sockets linux 5 0 167772161 idle w' Hrun).
Defined.

(** A time-to-live of 300 is stored as 44. *)
Lemma Net_setMulticastTtl_stored_witness :
  exists (w' : world) (s : sock),
    run (@posix linux) (@Java_io_questdb_network_Net_setMulticastTtl linux 5 300) idle
    = Returns 0 w' /\
    fds w' !! 5 = Some s /\ multicast_ttl s = 44.
Proof.
  assert (Hrun : { w' : world |
            run (@posix linux) (@Java_io_questdb_network_Net_setMulticastTtl linux 5 300) idle
            = Returns 0 w' }) by (eexists; vm_compute; reflexivity).
  destruct Hrun as [w' Hrun].
  destruct (@Net_setMulticastTtl_stored linux 5 300 idle w' Hrun) as (s & Hs & Httl);
    [left; vm_compute; discriminate |].
  exists w', s. split; [exact Hrun |]. split; [exact Hs | exact Httl].
Defined.
